(** * kfto_mnist: the distributed-training control loop

    A shallow embedding of [src/kfto_mnist.py]: process-group setup
    ([ddp_setup]), the [Trainer] class (construction, snapshot save and
    load, the epoch loop), [main] and the command-line entry point.

    Python integers are [Z], strings are [string], [os.environ] and state
    dictionaries are [gmap]s.  Effects (logging, device binding, collective
    setup and teardown, file writes) are recorded as a trace of [Event]s by
    a small error-and-trace monad over the file store. *)

From Stdlib Require Import Ascii String ZArith QArith.
From stdpp Require Import base numbers option list strings gmap fin_map_dom pretty.

Local Open Scope string_scope.
Local Open Scope Z_scope.
Local Open Scope list_scope.

(** ** The training parameters

    The dictionary [parameters] that [main] reads, with its seven keys at
    the types the command line declares for them. *)

Module Parameters.
Record t := {
  epochs : Z;
  save_every : Z;
  batch_size : Z;
  lr : Q;
  dataset_path : string;
  snapshot_path : string;
  backend : string
}.
End Parameters.

(** ** Python values, exceptions and built-ins *)

Module Py.

Inductive Error :=
| KeyError (key : string)
| ValueError (msg : string)
| TypeError (msg : string)
| AttributeError (msg : string)
| RuntimeError (msg : string)
| ZeroDivisionError (msg : string)
| FileNotFoundError (path : string).

Inductive Result (A : Type) :=
| Ok (a : A)
| Raise (e : Error).
Arguments Ok {A} a.
Arguments Raise {A} e.

Definition is_Ok {A} (r : Result A) : bool :=
  match r with Ok _ => true | Raise _ => false end.

(** The values the script passes around dynamically: what
    [os.environ.get(k, d)] yields (the string stored under [k], or the
    default [d]), the attributes of the parsed command line, and the
    dictionary of training parameters. *)
Inductive Value :=
| VInt (n : Z)
| VFloat (x : Q)
| VStr (s : string)
| VDict (d : Parameters.t).

(** [range(a, b)]: the integers [a, a+1, ..., b-1]; empty when [b <= a]. *)
Definition range (a b : Z) : list Z :=
  map (fun i : nat => a + Z.of_nat i) (seq 0 (Z.to_nat (b - a))).

(** *** [int(s)] for a string [s] in base 10

    Surrounding whitespace is stripped, one sign is allowed, and the
    digits may be separated by single underscores.  (ASCII only.) *)

Definition code (c : ascii) : Z := Z.of_N (Ascii.N_of_ascii c).

Definition is_space (c : ascii) : bool :=
  let n := code c in
  ((9 <=? n) && (n <=? 13)) || ((28 <=? n) && (n <=? 32)).

Definition is_digit (c : ascii) : bool :=
  let n := code c in (48 <=? n) && (n <=? 57).

Definition is_underscore (c : ascii) : bool := code c =? 95.

Definition digit_value (c : ascii) : Z := code c - 48.

Fixpoint chars (s : string) : list ascii :=
  match s with
  | EmptyString => []
  | String c s' => c :: chars s'
  end.

Fixpoint lstrip (l : list ascii) : list ascii :=
  match l with
  | c :: l' => if is_space c then lstrip l' else l
  | [] => []
  end.

Definition strip (l : list ascii) : list ascii :=
  rev (lstrip (rev (lstrip l))).

(** [digits_from acc sep l]: [l] continues a digit string whose value so
    far is [acc]; [sep] says that the previous character was an
    underscore, after which a digit must follow. *)
Fixpoint digits_from (acc : Z) (sep : bool) (l : list ascii) : option Z :=
  match l with
  | [] => if sep then None else Some acc
  | c :: l' =>
      if is_digit c then digits_from (10 * acc + digit_value c) false l'
      else if is_underscore c then
             if sep then None else digits_from acc true l'
           else None
  end.

Definition digits (l : list ascii) : option Z :=
  match l with
  | c :: l' => if is_digit c then digits_from (digit_value c) false l' else None
  | [] => None
  end.

Definition signed_digits (l : list ascii) : option Z :=
  match l with
  | c :: l' =>
      if code c =? 45 then Z.opp <$> digits l'
      else if code c =? 43 then digits l'
      else digits l
  | [] => None
  end.

Definition int_of_string (s : string) : Result Z :=
  match signed_digits (strip (chars s)) with
  | Some n => Ok n
  | None => Raise (ValueError ("invalid literal for int() with base 10: '" +:+ s +:+ "'"))
  end.

(** [int(v)] *)
Definition int (v : Value) : Result Z :=
  match v with
  | VInt n => Ok n
  | VFloat x => Ok (Qnum x ÷ Zpos (Qden x))
  | VStr s => int_of_string s
  | VDict _ => Raise (TypeError "int() argument must be a string, a bytes-like object or a real number, not 'dict'")
  end.

(** [a % b] on integers: the remainder has the sign of [b]. *)
Definition mod_ (a b : Z) : Result Z :=
  if bool_decide (b = 0) then Raise (ZeroDivisionError "integer modulo by zero")
  else Ok (a `mod` b).

(** [os.environ.get(key, default)] and [os.environ[key]] *)
Definition environ_get (environ : gmap string string) (key : string) (default : Value) : Value :=
  match environ !! key with
  | Some s => VStr s
  | None => default
  end.

Definition environ_getitem (environ : gmap string string) (key : string) : Result Value :=
  match environ !! key with
  | Some s => Ok (VStr s)
  | None => Raise (KeyError key)
  end.

(** [os.path.dirname(p)] (posixpath): everything up to and including the
    last slash, with trailing slashes removed unless it consists of
    slashes only. *)
Definition is_slash (c : ascii) : bool := code c =? 47.

Fixpoint drop_file_rev (l : list ascii) : list ascii :=
  match l with
  | c :: l' => if is_slash c then l else drop_file_rev l'
  | [] => []
  end.

Fixpoint drop_slashes (l : list ascii) : list ascii :=
  match l with
  | c :: l' => if is_slash c then drop_slashes l' else l
  | [] => []
  end.

Fixpoint unchars (l : list ascii) : string :=
  match l with
  | [] => EmptyString
  | c :: l' => String c (unchars l')
  end.

Definition dirname (p : string) : string :=
  let head_rev := drop_file_rev (rev (chars p)) in
  match drop_slashes head_rev with
  | [] => unchars (rev head_rev)
  | stripped => unchars (rev stripped)
  end.

(** *** Calling a function

    [bind_arguments name params pos kw] binds the positional arguments
    [pos] and the keyword arguments [kw] of a call to the parameters
    [params] of a function [def name(params)] that has no defaults, no
    [*args] and no [**kwargs]. *)
Definition Bound := list (string * Value).

Fixpoint bind_positional (params : list string) (pos : list Value) : Bound :=
  match params, pos with
  | p :: params', v :: pos' => (p, v) :: bind_positional params' pos'
  | _, _ => []
  end.

Definition is_bound (b : Bound) (p : string) : bool :=
  bool_decide (p ∈ b.*1).

Fixpoint bind_keywords (name : string) (params : list string)
         (b : Bound) (kw : list (string * Value)) : Result Bound :=
  match kw with
  | [] => Ok b
  | (k, v) :: kw' =>
      if bool_decide (k ∈ params) then
        if is_bound b k then
          Raise (TypeError (name +:+ "() got multiple values for argument '" +:+ k +:+ "'"))
        else bind_keywords name params (b ++ [(k, v)]) kw'
      else
        Raise (TypeError (name +:+ "() got an unexpected keyword argument '" +:+ k +:+ "'"))
  end.

Definition plural (n : nat) (word : string) : string :=
  pretty n +:+ " " +:+ word +:+ (if bool_decide (n = 1%nat) then "" else "s").

Fixpoint quoted_names (l : list string) : string :=
  match l with
  | [] => ""
  | [a] => "'" +:+ a +:+ "'"
  | [a; b] => "'" +:+ a +:+ "' and '" +:+ b +:+ "'"
  | a :: l' => "'" +:+ a +:+ "', " +:+ quoted_names l'
  end.

Definition bind_arguments (name : string) (params : list string)
           (pos : list Value) (kw : list (string * Value)) : Result Bound :=
  match bind_keywords name params (bind_positional params pos) kw with
  | Raise e => Raise e
  | Ok b =>
      if (length params <? length pos)%nat then
        Raise (TypeError (name +:+ "() takes " +:+ plural (length params) "positional argument"
                          +:+ " but " +:+ pretty (length pos)
                          +:+ (if bool_decide (length pos = 1%nat) then " was" else " were")
                          +:+ " given"))
      else
        match filter (fun p => is_bound b p = false) params with
        | [] => Ok b
        | missing =>
            Raise (TypeError (name +:+ "() missing "
                              +:+ plural (length missing) "required positional argument"
                              +:+ ": " +:+ quoted_names missing))
        end
  end.

End Py.

(** ** The machine a process runs on

    The numeric tensor engine and the dataset provider are opaque: a
    machine supplies the initial values [Net()] gives to the parameter of a
    given name, the value a parameter has after the optimizer step of batch
    [i] of epoch [e] (given all current parameter values), and the length
    of the first batch and the number of batches of this process's
    partition, by batch size. *)

(** The storage of a tensor: the bit patterns of its elements. *)
Definition Payload : Type := list Z.

Record World := {
  device_count : nat;                 (* torch.cuda.device_count() *)
  environ : gmap string string;       (* os.environ *)
  init_payload : string → Payload;
  batch_update : Z → nat → gmap string Payload → string → Payload;
  partition_first_batch_len : Z → Z;
  partition_steps : Z → nat
}.

(** [torch.cuda.is_available()] *)
Definition cuda_is_available (w : World) : bool :=
  bool_decide (0 < device_count w)%nat.

Inductive Device :=
| Cpu
| Cuda (index : Z).

(** [str(device)] *)
Definition device_str (d : Device) : string :=
  match d with
  | Cpu => "cpu"
  | Cuda i => "cuda:" +:+ pretty i
  end.

(** [torch.device(f'cuda:{index}')]: the index of a device string is a
    non-negative decimal number. *)
Definition torch_device_cuda (index : Z) : Py.Result Device :=
  if bool_decide (index < 0)
  then Py.Raise (Py.RuntimeError ("Invalid device string: 'cuda:" +:+ pretty index +:+ "'"))
  else Py.Ok (Cuda index).

(** A device a tensor can be placed on: the CPU, or an accelerator whose
    index is below the device count. *)
Definition device_in_range (w : World) (d : Device) : bool :=
  match d with
  | Cpu => true
  | Cuda i => bool_decide (0 ≤ i < Z.of_nat (device_count w))
  end.

Record DataLoader := {
  first_batch_len : Z;                (* len(next(iter(loader))[0]) *)
  steps : nat;                        (* len(loader) *)
  pin_memory : bool;
  sampler_is_distributed : bool       (* isinstance(loader.sampler, DistributedSampler) *)
}.

Record Optimizer := { learning_rate : Q }.

Record Tensor := { shape : list nat; payload : Payload }.

(** *** Modules and state dictionaries *)

Inductive NNModule :=
| Net (params : gmap string Tensor)
| DDP (module : NNModule) (device_ids : option (list Z)).

Definition parameter (w : World) (name : string) (dims : list nat) : string * Tensor :=
  (name, {| shape := dims; payload := init_payload w name |}).

(** [Net()] *)
Definition Net_new (w : World) : NNModule :=
  Net (list_to_map
         [ parameter w "conv1.weight" [20; 1; 5; 5]%nat;
           parameter w "conv1.bias" [20]%nat;
           parameter w "conv2.weight" [50; 20; 5; 5]%nat;
           parameter w "conv2.bias" [50]%nat;
           parameter w "fc1.weight" [500; 800]%nat;
           parameter w "fc1.bias" [500]%nat;
           parameter w "fc2.weight" [10; 500]%nat;
           parameter w "fc2.bias" [10]%nat ]).

(** [m.state_dict()]: the wrapper prefixes every key with [module.] *)
Fixpoint state_dict (m : NNModule) : gmap string Tensor :=
  match m with
  | Net params => params
  | DDP inner _ => kmap (String.append "module.") (state_dict inner)
  end.

(** [m.module] *)
Definition get_module (m : NNModule) : Py.Result NNModule :=
  match m with
  | DDP inner _ => Py.Ok inner
  | Net _ => Py.Raise (Py.AttributeError "'Net' object has no attribute 'module'")
  end.

Fixpoint assign (m : NNModule) (get : string → option Tensor) : NNModule :=
  match m with
  | Net params => Net (map_imap (fun k _ => get k) params)
  | DDP inner ids => DDP (assign inner (fun k => get ("module." +:+ k))) ids
  end.

Definition shapes_agree (own sd : gmap string Tensor) : bool :=
  bool_decide (map_Forall (fun k t => shape <$> sd !! k = Some (shape t)) own).

(** [m.load_state_dict(sd)] (strict): the keys of [sd] must be exactly
    the keys of [m.state_dict()], with the same shapes. *)
Definition load_state_dict (m : NNModule) (sd : gmap string Tensor) : Py.Result NNModule :=
  let own := state_dict m in
  if bool_decide (dom sd = dom own) then
    if shapes_agree own sd then Py.Ok (assign m (fun k => sd !! k))
    else Py.Raise (Py.RuntimeError "Error(s) in loading state_dict: size mismatch")
  else Py.Raise (Py.RuntimeError "Error(s) in loading state_dict: missing or unexpected key(s)").

(** The in-place parameter update of one optimizer step. *)
Fixpoint optimizer_step (w : World) (epoch : Z) (i : nat) (m : NNModule) : NNModule :=
  match m with
  | Net params =>
      Net (map_imap
             (fun k t => Some {| shape := shape t;
                                 payload := batch_update w epoch i (payload <$> params) k |})
             params)
  | DDP inner ids => DDP (optimizer_step w epoch i inner) ids
  end.

(** *** Snapshots, events and the monad of the script *)

Record Snapshot := { MODEL_STATE : gmap string Tensor; EPOCHS_RUN : Z }.

Inductive Event :=
| LogInfo (msg : string)
| LogWarning (msg : string)
| CudaSetDevice (device : Z)
| InitProcessGroup (backend : string)
| DestroyProcessGroup
| LoadMNIST (path : string)
| Makedirs (dir : string)
| TorchLoad (path : string) (map_location : Device)
| TorchSave (path : string) (snapshot : Snapshot)
| ModuleTo (device : Device)
| WrapDDP (device_ids : option (list Z))
| RunEpoch (epoch : Z)               (* entry of _run_epoch *)
| SamplerSetEpoch (epoch : Z)
| RunBatch (epoch : Z) (i : nat).    (* one call of _run_batch *)

Record Outcome (A : Type) := {
  result : Py.Result A;
  files : gmap string Snapshot;
  trace : list Event
}.
Arguments result {A} _.
Arguments files {A} _.
Arguments trace {A} _.

(** A computation reads and writes the snapshot files and yields a value
    or an exception, together with the events it performed. *)
Definition M (A : Type) : Type := gmap string Snapshot → Outcome A.

Definition ret {A} (a : A) : M A :=
  fun fs => {| result := Py.Ok a; files := fs; trace := [] |}.

Definition bind {A B} (m : M A) (k : A → M B) : M B :=
  fun fs =>
    let o := m fs in
    match result o with
    | Py.Ok a =>
        let o' := k a (files o) in
        {| result := result o'; files := files o'; trace := trace o ++ trace o' |}
    | Py.Raise e => {| result := Py.Raise e; files := files o; trace := trace o |}
    end.

Definition lift {A} (r : Py.Result A) : M A :=
  fun fs => {| result := r; files := fs; trace := [] |}.

Definition emit (ev : Event) : M unit :=
  fun fs => {| result := Py.Ok (); files := fs; trace := [ev] |}.

#[local] Instance M_ret : MRet M := @ret.
#[local] Instance M_bind : MBind M := fun A B k m => bind m k.

(** [for x in l: self = body(self, x)] *)
Fixpoint for_each {S X} (l : list X) (self : S) (body : S → X → M S) : M S :=
  match l with
  | [] => mret self
  | x :: l' => self' ← body self x; for_each l' self' body
  end.

(** [os.path.exists(path)], [torch.save(snapshot, path)] and
    [torch.load(path, map_location=device)] *)
Definition path_exists (path : string) : M bool :=
  fun fs => {| result := Py.Ok (match fs !! path with Some _ => true | None => false end);
               files := fs; trace := [] |}.

Definition torch_save (snapshot : Snapshot) (path : string) : M unit :=
  fun fs => {| result := Py.Ok (); files := <[path := snapshot]> fs;
               trace := [TorchSave path snapshot] |}.

Definition torch_load (path : string) (map_location : Device) : M Snapshot :=
  fun fs => {| result := match fs !! path with
                         | Some snapshot => Py.Ok snapshot
                         | None => Py.Raise (Py.FileNotFoundError path)
                         end;
               files := fs;
               trace := [TorchLoad path map_location] |}.

(** [m.to(device)]: placing parameters on an accelerator that does not
    exist fails. *)
Definition module_to (w : World) (m : NNModule) (device : Device) : M NNModule :=
  _ ← emit (ModuleTo device);
  if device_in_range w device then mret m
  else lift (Py.Raise (Py.RuntimeError "CUDA error: invalid device ordinal")).

(** *** [ddp_setup] *)

Definition ddp_setup (w : World) (backend : string) : M unit :=
  backend ←
    (if cuda_is_available w && bool_decide (backend = "nccl") then
       let num_devices := Z.of_nat (device_count w) in
       device ← lift (Py.int (Py.environ_get (environ w) "LOCAL_RANK" (Py.VInt 0)));
       device ←
         (if bool_decide (num_devices ≤ device) then
            _ ← emit (LogWarning ("Warning: Invalid device ordinal " +:+ pretty device
                                  +:+ ". Defaulting to device 0."));
            mret 0
          else mret device);
       _ ← emit (CudaSetDevice device);
       mret backend
     else
       _ ← emit (LogInfo "No GPU available, falling back to CPU.");
       mret "gloo");
  emit (InitProcessGroup backend).

(** *** [class Trainer] *)

Record Trainer := {
  local_rank : Z;
  global_rank : Z;
  model : NNModule;
  train_data : DataLoader;
  optimizer : Optimizer;
  save_every : Z;
  epochs_run : Z;
  snapshot_path : string;
  backend : string;
  device : Device
}.

Definition set_model (self : Trainer) (m : NNModule) : Trainer :=
  {| local_rank := local_rank self; global_rank := global_rank self; model := m;
     train_data := train_data self; optimizer := optimizer self;
     save_every := save_every self; epochs_run := epochs_run self;
     snapshot_path := snapshot_path self; backend := backend self;
     device := device self |}.

Definition set_epochs_run (self : Trainer) (n : Z) : Trainer :=
  {| local_rank := local_rank self; global_rank := global_rank self; model := model self;
     train_data := train_data self; optimizer := optimizer self;
     save_every := save_every self; epochs_run := n;
     snapshot_path := snapshot_path self; backend := backend self;
     device := device self |}.

(** [Trainer._load_snapshot] *)
Definition _load_snapshot (self : Trainer) (path : string) : M Trainer :=
  snapshot ← torch_load path (device self);
  m ← lift (load_state_dict (model self) (MODEL_STATE snapshot));
  let self := set_epochs_run (set_model self m) (EPOCHS_RUN snapshot) in
  _ ← emit (LogInfo ("Resuming training from snapshot. Epochs run: "
                     +:+ pretty (epochs_run self)));
  mret self.

(** [Trainer.__init__]; the arguments carry a prime where their name is
    that of the attribute they initialise. *)
Definition Trainer_init (w : World) (model' : NNModule) (train_data' : DataLoader)
           (optimizer' : Optimizer) (save_every' : Z) (snapshot_path' backend' : string)
  : M Trainer :=
  local_rank' ← lift (Py.int (Py.environ_get (environ w) "LOCAL_RANK" (Py.VInt (-1))));
  rank ← lift (Py.environ_getitem (environ w) "RANK");
  global_rank' ← lift (Py.int rank);
  device' ←
    (if cuda_is_available w && bool_decide (backend' = "nccl")
     then lift (torch_device_cuda local_rank')
     else mret Cpu);
  let self :=
    {| local_rank := local_rank'; global_rank := global_rank'; model := model';
       train_data := train_data'; optimizer := optimizer'; save_every := save_every';
       epochs_run := 0; snapshot_path := snapshot_path'; backend := backend';
       device := device' |} in
  _ ← emit (LogInfo ("Using device: " +:+ device_str (device self)));
  let snapshot_dir := Py.dirname (snapshot_path self) in
  _ ← (if bool_decide (snapshot_dir ≠ "") then emit (Makedirs snapshot_dir) else mret ());
  present ← path_exists (snapshot_path self);
  self ←
    (if present : bool then
       _ ← emit (LogInfo "Loading snapshot");
       _load_snapshot self (snapshot_path self)
     else mret self);
  if cuda_is_available w && bool_decide (backend self = "nccl") then
    m ← module_to w (model self) (device self);
    _ ← emit (WrapDDP (Some [local_rank self]));
    mret (set_model self (DDP m (Some [local_rank self])))
  else
    m ← module_to w (model self) (device self);
    _ ← emit (WrapDDP None);
    mret (set_model self (DDP m None)).

(** [Trainer._run_batch]: one optimizer step on the wrapped model. *)
Definition _run_batch (w : World) (self : Trainer) (epoch : Z) (i : nat) : M Trainer :=
  _ ← emit (RunBatch epoch i);
  mret (set_model self (optimizer_step w epoch i (model self))).

(** [Trainer._run_epoch] *)
Definition _run_epoch (w : World) (self : Trainer) (epoch : Z) (backend : string)
  : M Trainer :=
  _ ← emit (RunEpoch epoch);
  let b_sz := first_batch_len (train_data self) in
  _ ← emit (LogInfo ((if cuda_is_available w && bool_decide (backend = "nccl")
                      then "[GPU" else "[CPU")
                     +:+ pretty (global_rank self) +:+ "] Epoch " +:+ pretty epoch
                     +:+ " | Batchsize: " +:+ pretty b_sz
                     +:+ " | Steps: " +:+ pretty (steps (train_data self))));
  _ ← (if sampler_is_distributed (train_data self)
       then emit (SamplerSetEpoch epoch) else mret ());
  for_each (seq 0 (steps (train_data self))) self
           (fun self i => _run_batch w self epoch i).

(** [Trainer._save_snapshot] *)
Definition _save_snapshot (w : World) (self : Trainer) (epoch : Z) : M unit :=
  model_state ←
    (if cuda_is_available w
     then inner ← lift (get_module (model self)); mret (state_dict inner)
     else mret (state_dict (model self)));
  let snapshot := {| MODEL_STATE := model_state; EPOCHS_RUN := epoch |} in
  _ ← torch_save snapshot (snapshot_path self);
  emit (LogInfo ("Epoch " +:+ pretty epoch +:+ " | Training snapshot saved at "
                 +:+ snapshot_path self)).

(** The body of the loop of [Trainer.train], for one [epoch]. *)
Definition train_epoch (w : World) (backend : string) (self : Trainer) (epoch : Z)
  : M Trainer :=
  self ← _run_epoch w self epoch backend;
  due ←
    (if bool_decide (global_rank self = 0)
     then r ← lift (Py.mod_ epoch (save_every self)); mret (bool_decide (r = 0))
     else mret false);
  _ ← (if due : bool then _save_snapshot w self epoch else mret ());
  mret self.

(** [Trainer.train] *)
Definition train (w : World) (self : Trainer) (max_epochs : Z) (backend : string)
  : M Trainer :=
  for_each (Py.range (epochs_run self) max_epochs) self (train_epoch w backend).

(** *** [load_train_objs], [prepare_dataloader] and [main] *)

Definition load_train_objs (w : World) (dataset_path : string) (lr : Q)
  : M (NNModule * Optimizer) :=
  _ ← emit (LoadMNIST dataset_path);
  mret (Net_new w, {| learning_rate := lr |}).

Definition prepare_dataloader (w : World) (batch_size : Z) (useGpu : bool) : DataLoader :=
  {| first_batch_len := partition_first_batch_len w batch_size;
     steps := partition_steps w batch_size;
     pin_memory := useGpu;
     sampler_is_distributed := true |}.

(** Lines 172 to 175 of [main]: the training objects, the loader, the
    [Trainer] and its [train] call; the trainer is kept as the result. *)
Definition construct_and_train (w : World) (parameters : Parameters.t) : M Trainer :=
  let epochs := Parameters.epochs parameters in
  let save_every := Parameters.save_every parameters in
  let batch_size := Parameters.batch_size parameters in
  let lr := Parameters.lr parameters in
  let dataset_path := Parameters.dataset_path parameters in
  let snapshot_path := Parameters.snapshot_path parameters in
  let backend := Parameters.backend parameters in
  '(model, optimizer) ← load_train_objs w dataset_path lr;
  let train_loader :=
    prepare_dataloader w batch_size
                       (cuda_is_available w && bool_decide (backend = "nccl")) in
  trainer ← Trainer_init w model train_loader optimizer save_every snapshot_path backend;
  train w trainer epochs backend.

(** The body of [main] once [parameters] is known to be a dictionary:
    setup, construction and training, teardown. *)
Definition main_body (w : World) (parameters : Parameters.t) : M unit :=
  _ ← ddp_setup w (Parameters.backend parameters);
  _ ← construct_and_train w parameters;
  emit DestroyProcessGroup.

(** [main(parameters)]: the first statement that touches [parameters]
    subscripts it with a string. *)
Definition main (w : World) (parameters : Py.Value) : M unit :=
  match parameters with
  | Py.VDict d => main_body w d
  | Py.VInt _ => lift (Py.Raise (Py.TypeError "'int' object is not subscriptable"))
  | Py.VFloat _ => lift (Py.Raise (Py.TypeError "'float' object is not subscriptable"))
  | Py.VStr _ => lift (Py.Raise (Py.TypeError "string indices must be integers, not 'str'"))
  end.

(** The call [main(epochs=args.epochs, ..., backend=args.backend)] of the
    [__main__] block, for the namespace [args] the argument parser
    returned. *)
Definition entry_point (w : World) (args : Parameters.t) : M unit :=
  bound ← lift (Py.bind_arguments "main" ["parameters"] []
                  [ ("epochs", Py.VInt (Parameters.epochs args));
                    ("save_every", Py.VInt (Parameters.save_every args));
                    ("batch_size", Py.VInt (Parameters.batch_size args));
                    ("lr", Py.VFloat (Parameters.lr args));
                    ("dataset_path", Py.VStr (Parameters.dataset_path args));
                    ("snapshot_path", Py.VStr (Parameters.snapshot_path args));
                    ("backend", Py.VStr (Parameters.backend args)) ]);
  match bound with
  | [(_, parameters)] => main w parameters
  | _ => lift (Py.Raise (Py.TypeError "main() missing 1 required positional argument: 'parameters'"))
  end.

(** *** What a trace shows *)

Definition epoch_of (ev : Event) : option Z :=
  match ev with RunEpoch e => Some e | _ => None end.

Definition write_of (ev : Event) : option (string * Snapshot) :=
  match ev with TorchSave path snapshot => Some (path, snapshot) | _ => None end.

Definition teardown_of (ev : Event) : option unit :=
  match ev with DestroyProcessGroup => Some () | _ => None end.

Definition warning_of (ev : Event) : option string :=
  match ev with LogWarning msg => Some msg | _ => None end.

Definition bind_of (ev : Event) : option Device :=
  match ev with
  | CudaSetDevice i => Some (Cuda i)
  | ModuleTo d => Some d
  | WrapDDP (Some ids) => Cuda <$> head ids
  | _ => None
  end.

(** The epochs run, the snapshots written, the teardowns, the warnings
    and the device binds of a trace, in order. *)
Definition epochs_executed (tr : list Event) : list Z := omap epoch_of tr.
Definition snapshots_written (tr : list Event) : list (string * Snapshot) := omap write_of tr.
Definition teardowns (tr : list Event) : list unit := omap teardown_of tr.
Definition warnings (tr : list Event) : list string := omap warning_of tr.
Definition device_binds (tr : list Event) : list Device := omap bind_of tr.

(** Replaying the writes of a trace on a file store. *)
Definition replay (writes : list (string * Snapshot)) (fs : gmap string Snapshot)
  : gmap string Snapshot :=
  foldl (fun fs ps => <[ps.1 := ps.2]> fs) fs writes.

(** The epochs of [l] after which the process of rank [rank] writes a
    snapshot. *)
Definition is_due (rank save_every : Z) (e : Z) : bool :=
  bool_decide (rank = 0) && bool_decide (e `mod` save_every = 0).

(** Two modules with the same wrappers and the same parameter names and
    shapes. *)
Fixpoint similar (m1 m2 : NNModule) : Prop :=
  match m1, m2 with
  | Net p1, Net p2 => shape <$> p1 = shape <$> p2
  | DDP a i, DDP b j => i = j ∧ similar a b
  | _, _ => False
  end.

(** The trainer [b] is the trainer [a] after some training: only the
    parameter values differ. *)
Definition evolves (a b : Trainer) : Prop :=
  ∃ m, b = set_model a m ∧ similar (model a) m.

(** The state [_save_snapshot] stores for a module. *)
Definition saved_state (w : World) (m : NNModule) : gmap string Tensor :=
  if cuda_is_available w then
    match m with
    | DDP inner _ => state_dict inner
    | Net _ => ∅
    end
  else state_dict m.

(** ** Properties of computations and trainers *)

(** A computation is quiet for an observation when it performs no event
    the observation sees. *)
Definition quiet {X A} (π : Event → option X) (m : M A) : Prop :=
  ∀ fs, omap π (trace (m fs)) = [].

(** A computation aborts when it raises on every file store; it aborts
    quietly for an observation when it shows that observation nothing
    on the way. *)
Definition aborts {X A} (π : Event → option X) (m : M A) : Prop :=
  ∀ fs, Py.is_Ok (result (m fs)) = false ∧ omap π (trace (m fs)) = [].

(** The file store after a computation is the one before it with the
    writes of the trace replayed. *)
Definition journaled {A} (m : M A) : Prop :=
  ∀ fs, files (m fs) = replay (snapshots_written (trace (m fs))) fs.

Definition wrapped (m : NNModule) : Prop := ∃ inner ids, m = DDP inner ids.

(** A trainer whose loop cannot raise: its model is wrapped, and if it is
    the writer its period is not zero. *)
Definition trainable (self : Trainer) : Prop :=
  wrapped (model self) ∧ (global_rank self = 0 → save_every self ≠ 0).

(** A snapshot written by the trainer [self] after epoch [e]. *)
Definition written_by (w : World) (self : Trainer) (e : Z) (ps : string * Snapshot) : Prop :=
  ps.1 = snapshot_path self
  ∧ EPOCHS_RUN ps.2 = e
  ∧ shape <$> MODEL_STATE ps.2 = shape <$> saved_state w (model self).

(** ** Concrete machines and parameters

    A machine with [n] accelerator devices and the environment [env]; its
    tensor engine starts every parameter at one zero element and records
    the epoch of every optimizer step; every partition has two batches. *)

Module Example.

Definition machine (n : nat) (env : list (string * string)) : World :=
  {| device_count := n;
     environ := list_to_map env;
     init_payload := fun _ => [0];
     batch_update := fun e _ ps k => e :: default [] (ps !! k);
     partition_first_batch_len := fun b => b;
     partition_steps := fun _ => 2%nat |}.

Definition parameters (epochs save_every : Z) (backend : string) : Parameters.t :=
  {| Parameters.epochs := epochs;
     Parameters.save_every := save_every;
     Parameters.batch_size := 64;
     Parameters.lr := (1 # 1000)%Q;
     Parameters.dataset_path := "../data";
     Parameters.snapshot_path := "snapshot_mnist.pt";
     Parameters.backend := backend |}.

Definition loader : DataLoader :=
  {| first_batch_len := 64; steps := 2; pin_memory := false;
     sampler_is_distributed := true |}.

Definition adam : Optimizer := {| learning_rate := (1 # 1000)%Q |}.

(** A process on a machine without accelerator, with one accelerator,
    and with two accelerators but local rank 2. *)
Definition cpu_box : World := machine 0 [("RANK", "0")].
Definition gpu_box : World := machine 1 [("RANK", "0"); ("LOCAL_RANK", "0")].
Definition gpu_box_no_local_rank : World := machine 1 [("RANK", "0")].
Definition gpu_box_rank_2 : World := machine 2 [("RANK", "0"); ("LOCAL_RANK", "2")].
Definition box_without_rank : World := machine 0 [].

(** A trainer as [Trainer.__init__] leaves it on [cpu_box]. *)
Definition cpu_trainer : Trainer :=
  {| local_rank := -1; global_rank := 0; model := DDP (Net_new cpu_box) None;
     train_data := loader; optimizer := adam; save_every := 1; epochs_run := 0;
     snapshot_path := "snapshot_mnist.pt"; backend := "gloo"; device := Cpu |}.

End Example.

(** *** Further observations *)

Definition set_device_of (ev : Event) : option Z :=
  match ev with CudaSetDevice d => Some d | _ => None end.


Definition makedirs_of (ev : Event) : option string :=
  match ev with Makedirs d => Some d | _ => None end.

(** The devices selected with [torch.cuda.set_device], the transports the
    process group was initialised with and the directories created. *)
Definition devices_set (tr : list Event) : list Z := omap set_device_of tr.
Definition directories_made (tr : list Event) : list string := omap makedirs_of tr.

(** The trace of one call of [_run_epoch]. *)
Definition epoch_trace (w : World) (self : Trainer) (epoch : Z) (backend : string)
  : list Event :=
  [ RunEpoch epoch;
    LogInfo ((if cuda_is_available w && bool_decide (backend = "nccl")
              then "[GPU" else "[CPU")
             +:+ pretty (global_rank self) +:+ "] Epoch " +:+ pretty epoch
             +:+ " | Batchsize: " +:+ pretty (first_batch_len (train_data self))
             +:+ " | Steps: " +:+ pretty (steps (train_data self))) ]
  ++ (if sampler_is_distributed (train_data self) then [SamplerSetEpoch epoch] else [])
  ++ (RunBatch epoch <$> seq 0 (steps (train_data self))).

(** The model after the optimizer steps of the batches [l] of an epoch. *)
Definition after_batches (w : World) (epoch : Z) (l : list nat) (m : NNModule) : NNModule :=
  foldl (fun m i => optimizer_step w epoch i m) m l.

Module Trainers.
(** The trainer of [cpu_box] with a period of zero, and one on rank 1. *)
Definition cpu_trainer_period_0 : Trainer :=
  {| local_rank := -1; global_rank := 0; model := DDP (Net_new Example.cpu_box) None;
     train_data := Example.loader; optimizer := Example.adam; save_every := 0;
     epochs_run := 0; snapshot_path := "snapshot_mnist.pt"; backend := "gloo";
     device := Cpu |}.
Definition cpu_trainer_rank_1 : Trainer :=
  {| local_rank := -1; global_rank := 1; model := DDP (Net_new Example.cpu_box) None;
     train_data := Example.loader; optimizer := Example.adam; save_every := 0;
     epochs_run := 0; snapshot_path := "snapshot_mnist.pt"; backend := "gloo";
     device := Cpu |}.
(** A trainer as [Trainer.__init__] leaves it on [gpu_box]. *)
Definition gpu_trainer : Trainer :=
  {| local_rank := 0; global_rank := 0; model := DDP (Net_new Example.gpu_box) (Some [0]);
     train_data := Example.loader; optimizer := Example.adam; save_every := 1;
     epochs_run := 0; snapshot_path := "snapshot_mnist.pt"; backend := "nccl";
     device := Cuda 0 |}.
(** The trainer of [cpu_box] with a snapshot every third epoch. *)
Definition cpu_trainer_period_3 : Trainer :=
  {| local_rank := -1; global_rank := 0; model := DDP (Net_new Example.cpu_box) None;
     train_data := Example.loader; optimizer := Example.adam; save_every := 3;
     epochs_run := 0; snapshot_path := "snapshot_mnist.pt"; backend := "gloo";
     device := Cpu |}.
End Trainers.

(** ** Reasoning about computations *)

Lemma bind_outcome {A B} (m : M A) (k : A → M B) fs :
  (x ← m; k x) fs =
  match result (m fs) with
  | Py.Ok a =>
      {| result := result (k a (files (m fs)));
         files := files (k a (files (m fs)));
         trace := trace (m fs) ++ trace (k a (files (m fs))) |}
  | Py.Raise e =>
      {| result := Py.Raise e; files := files (m fs); trace := trace (m fs) |}
  end.
Proof. reflexivity. Qed.

Lemma quiet_ret {X A} (π : Event → option X) (a : A) : quiet π (mret a).
Proof. intros fs. reflexivity. Qed.

Lemma quiet_lift {X A} (π : Event → option X) (r : Py.Result A) : quiet π (lift r).
Proof. intros fs. reflexivity. Qed.

Lemma quiet_emit {X} (π : Event → option X) ev : π ev = None → quiet π (emit ev).
Proof. intros H fs. simpl. by rewrite H. Qed.

Lemma quiet_path_exists {X} (π : Event → option X) path : quiet π (path_exists path).
Proof. intros fs. reflexivity. Qed.

Lemma quiet_torch_load {X} (π : Event → option X) path d :
  π (TorchLoad path d) = None → quiet π (torch_load path d).
Proof. intros H fs. simpl. by rewrite H. Qed.

Lemma quiet_torch_save {X} (π : Event → option X) snapshot path :
  π (TorchSave path snapshot) = None → quiet π (torch_save snapshot path).
Proof. intros H fs. simpl. by rewrite H. Qed.

Lemma quiet_bind {X A B} (π : Event → option X) (m : M A) (k : A → M B) :
  quiet π m → (∀ a, quiet π (k a)) → quiet π (x ← m; k x).
Proof.
  intros Hm Hk fs. rewrite bind_outcome.
  destruct (result (m fs)) as [a|e]; simpl.
  - by rewrite omap_app, Hm, Hk.
  - apply Hm.
Qed.

Lemma quiet_for_each {X S Y} (π : Event → option X) (l : list Y) (body : S → Y → M S) :
  (∀ self y, quiet π (body self y)) → ∀ self, quiet π (for_each l self body).
Proof.
  intros Hbody. induction l as [|y l IH]; intros self; simpl.
  - apply quiet_ret.
  - apply quiet_bind; auto.
Qed.

(** After a quiet prefix, an observation sees what the continuation does. *)
Lemma quiet_then {X A B} (π : Event → option X) (m : M A) (k : A → M B) fs :
  quiet π m →
  omap π (trace ((x ← m; k x) fs)) =
  match result (m fs) with
  | Py.Ok a => omap π (trace (k a (files (m fs))))
  | Py.Raise _ => []
  end.
Proof.
  intros Hm. rewrite bind_outcome.
  destruct (result (m fs)); simpl; [|apply Hm].
  by rewrite omap_app, Hm.
Qed.

Ltac quiet_step :=
  match goal with
  | |- quiet _ (mbind _ _) => apply quiet_bind; [|intros]
  | |- quiet _ (mret _) => apply quiet_ret
  | |- quiet _ (lift _) => apply quiet_lift
  | |- quiet _ (emit _) => apply quiet_emit; reflexivity
  | |- quiet _ (path_exists _) => apply quiet_path_exists
  | |- quiet _ (torch_load _ _) => apply quiet_torch_load; reflexivity
  | |- quiet _ (torch_save _ _) => apply quiet_torch_save; reflexivity
  | |- quiet _ (for_each _ _ _) => apply quiet_for_each; intros
  | |- quiet _ (if ?c then _ else _) => destruct c
  | |- quiet _ (match ?x with _ => _ end) => destruct x
  end.

Ltac quiet_tac := repeat quiet_step.

Lemma aborts_raise {X A} (π : Event → option X) e : aborts π (lift (A:=A) (Py.Raise e)).
Proof. intros fs. by split. Qed.

Lemma aborts_bind_l {X A B} (π : Event → option X) (m : M A) (k : A → M B) :
  aborts π m → aborts π (x ← m; k x).
Proof.
  intros Hm fs. destruct (Hm fs) as [Hr Ht]. rewrite bind_outcome.
  destruct (result (m fs)); [discriminate|]. by split.
Qed.

Lemma aborts_bind_r {X A B} (π : Event → option X) (m : M A) (k : A → M B) :
  quiet π m → (∀ a, aborts π (k a)) → aborts π (x ← m; k x).
Proof.
  intros Hm Hk fs. rewrite bind_outcome.
  destruct (result (m fs)) as [a|e]; simpl.
  - destruct (Hk a (files (m fs))) as [Hr Ht]. split; [done|].
    by rewrite omap_app, Hm, Ht.
  - split; [done|apply Hm].
Qed.

Lemma replay_app ws1 ws2 fs : replay (ws1 ++ ws2) fs = replay ws2 (replay ws1 fs).
Proof. apply foldl_app. Qed.

Lemma journaled_ret {A} (a : A) : journaled (mret a).
Proof. intros fs. reflexivity. Qed.

Lemma journaled_lift {A} (r : Py.Result A) : journaled (lift r).
Proof. intros fs. reflexivity. Qed.

Lemma journaled_emit ev : write_of ev = None → journaled (emit ev).
Proof. intros H fs. unfold snapshots_written. simpl. by rewrite H. Qed.

Lemma journaled_path_exists path : journaled (path_exists path).
Proof. intros fs. reflexivity. Qed.

Lemma journaled_torch_load path d : journaled (torch_load path d).
Proof. intros fs. reflexivity. Qed.

Lemma journaled_torch_save snapshot path : journaled (torch_save snapshot path).
Proof. intros fs. reflexivity. Qed.

Lemma journaled_bind {A B} (m : M A) (k : A → M B) :
  journaled m → (∀ a, journaled (k a)) → journaled (x ← m; k x).
Proof.
  intros Hm Hk fs. rewrite bind_outcome.
  destruct (result (m fs)) as [a|e]; simpl; [|apply Hm].
  unfold snapshots_written. rewrite omap_app, replay_app.
  fold (snapshots_written (trace (m fs))). rewrite <- Hm. apply Hk.
Qed.

Lemma journaled_for_each {S Y} (l : list Y) (body : S → Y → M S) :
  (∀ self y, journaled (body self y)) → ∀ self, journaled (for_each l self body).
Proof.
  intros Hbody. induction l as [|y l IH]; intros self; simpl.
  - apply journaled_ret.
  - apply journaled_bind; auto.
Qed.

Ltac journaled_step :=
  match goal with
  | |- journaled (mbind _ _) => apply journaled_bind; [|intros]
  | |- journaled (mret _) => apply journaled_ret
  | |- journaled (lift _) => apply journaled_lift
  | |- journaled (emit _) => apply journaled_emit; reflexivity
  | |- journaled (path_exists _) => apply journaled_path_exists
  | |- journaled (torch_load _ _) => apply journaled_torch_load
  | |- journaled (torch_save _ _) => apply journaled_torch_save
  | |- journaled (for_each _ _ _) => apply journaled_for_each; intros
  | |- journaled (if ?c then _ else _) => destruct c
  | |- journaled (match ?x with _ => _ end) => destruct x
  end.

Ltac journaled_tac := repeat journaled_step.

Lemma ddp_setup_quiet {X} (π : Event → option X) w b :
  (∀ msg, π (LogInfo msg) = None) → (∀ msg, π (LogWarning msg) = None) →
  (∀ d, π (CudaSetDevice d) = None) → (∀ b', π (InitProcessGroup b') = None) →
  quiet π (ddp_setup w b).
Proof.
  intros Hi Hw Hd Hg. unfold ddp_setup.
  repeat first [ apply quiet_emit; auto | quiet_step ].
Qed.


(** ** Statements about the script *)

(** Every call through the command line fails when the call binds its
    arguments, before [main] does anything. *)

(** C10: for every namespace the argument parser returns, the call of
    [main] in the [__main__] block raises a [TypeError] (seven keyword
    arguments, one positional parameter); no event occurs and no file
    changes. *)
Theorem entry_point_raises_TypeError (w : World) (args : Parameters.t)
        (fs : gmap string Snapshot) :
  entry_point w args fs =
  {| result := Py.Raise (Py.TypeError "main() got an unexpected keyword argument 'epochs'");
     files := fs;
     trace := [] |}.
Proof. reflexivity. Qed.

(** *** Process-group setup *)

Lemma cuda_unavailable (w : World) : device_count w = 0%nat → cuda_is_available w = false.
Proof. intros H. unfold cuda_is_available. rewrite H. reflexivity. Qed.

(** C8, as amended: with no accelerator device, asking for the [nccl]
    transport initialises the process group with [gloo], logs one record
    at level INFO (and none at level WARNING) and raises nothing. *)
Theorem ddp_setup_falls_back_to_gloo (w : World) (fs : gmap string Snapshot) :
  device_count w = 0%nat →
  ddp_setup w "nccl" fs =
  {| result := Py.Ok ();
     files := fs;
     trace := [LogInfo "No GPU available, falling back to CPU."; InitProcessGroup "gloo"] |}.
Proof.
  intros H. unfold ddp_setup. rewrite (cuda_unavailable w H). reflexivity.
Qed.

(** With an accelerator and no [LOCAL_RANK], setup binds device 0. *)
Lemma ddp_setup_default_local_rank (w : World) (fs : gmap string Snapshot) :
  cuda_is_available w = true →
  environ w !! "LOCAL_RANK" = None →
  ddp_setup w "nccl" fs =
  {| result := Py.Ok (); files := fs;
     trace := [CudaSetDevice 0; InitProcessGroup "nccl"] |}.
Proof.
  intros Hc He. unfold ddp_setup, Py.environ_get. rewrite Hc, He. simpl.
  rewrite bind_outcome. simpl.
  rewrite bool_decide_false; [reflexivity|].
  unfold cuda_is_available in Hc. apply bool_decide_eq_true in Hc. lia.
Qed.


(** *** What the parts of [main] show to the observations *)

Lemma run_epoch_quiet {X} (π : Event → option X) w self e b :
  (∀ msg, π (LogInfo msg) = None) → π (RunEpoch e) = None →
  π (SamplerSetEpoch e) = None → (∀ i, π (RunBatch e i) = None) →
  quiet π (_run_epoch w self e b).
Proof.
  intros Hi He Hs Hb. unfold _run_epoch, _run_batch.
  repeat first [ apply quiet_emit; auto | quiet_step ].
Qed.

Lemma save_snapshot_quiet {X} (π : Event → option X) w self e :
  (∀ msg, π (LogInfo msg) = None) → (∀ path snap, π (TorchSave path snap) = None) →
  quiet π (_save_snapshot w self e).
Proof.
  intros Hi Hs. unfold _save_snapshot.
  repeat first [ apply quiet_emit; auto | apply quiet_torch_save; auto | quiet_step ].
Qed.

Lemma Trainer_init_quiet {X} (π : Event → option X) w m td opt s path b :
  (∀ msg, π (LogInfo msg) = None) → (∀ d, π (Makedirs d) = None) →
  (∀ p d, π (TorchLoad p d) = None) → (∀ d, π (ModuleTo d) = None) →
  (∀ ids, π (WrapDDP ids) = None) →
  quiet π (Trainer_init w m td opt s path b).
Proof.
  intros Hi Hm Hl Ht Hw. unfold Trainer_init, _load_snapshot, module_to.
  repeat first [ apply quiet_emit; auto | apply quiet_torch_load; auto | quiet_step ].
Qed.

Lemma train_quiet_teardown w self n b : quiet teardown_of (train w self n b).
Proof.
  unfold train. apply quiet_for_each. intros self' e. unfold train_epoch.
  apply quiet_bind; [apply run_epoch_quiet; auto|intros].
  apply quiet_bind; [quiet_tac|intros].
  apply quiet_bind; [|intros; apply quiet_ret].
  destruct a0; [apply save_snapshot_quiet; auto|apply quiet_ret].
Qed.

Lemma construct_and_train_quiet_teardown w p : quiet teardown_of (construct_and_train w p).
Proof.
  unfold construct_and_train, load_train_objs.
  apply quiet_bind; [quiet_tac|intros [m opt]].
  apply quiet_bind; [apply Trainer_init_quiet; auto|intros].
  apply train_quiet_teardown.
Qed.

(** Without [RANK], constructing a [Trainer] raises, having performed no
    event at all that an observation could see. *)
Lemma Trainer_init_aborts {X} (π : Event → option X) w m td opt s path b :
  environ w !! "RANK" = None →
  aborts π (Trainer_init w m td opt s path b).
Proof.
  intros H. unfold Trainer_init.
  apply aborts_bind_r; [apply quiet_lift|intros local_rank'].
  apply aborts_bind_l. unfold Py.environ_getitem. rewrite H. apply aborts_raise.
Qed.

Lemma construct_and_train_aborts {X} (π : Event → option X) w p :
  (∀ path, π (LoadMNIST path) = None) →
  environ w !! "RANK" = None →
  aborts π (construct_and_train w p).
Proof.
  intros Hl H. unfold construct_and_train, load_train_objs.
  apply aborts_bind_r.
  - apply quiet_bind; [apply quiet_emit; auto|intros; apply quiet_ret].
  - intros [m opt]. apply aborts_bind_l. by apply Trainer_init_aborts.
Qed.

Lemma main_body_journaled w p : journaled (main_body w p).
Proof.
  unfold main_body, ddp_setup, construct_and_train, load_train_objs, Trainer_init,
    _load_snapshot, module_to, train, _run_epoch, _run_batch, _save_snapshot.
  journaled_tac. unfold train_epoch, _run_epoch, _run_batch, _save_snapshot.
  journaled_tac.
Qed.

(** C7: without the [RANK] environment value the run raises, and it does
    so before any training work: no epoch is run, no snapshot is written
    and the file store is unchanged. *)
Theorem missing_rank_aborts_before_training (w : World) (parameters : Py.Value)
        (fs : gmap string Snapshot) :
  environ w !! "RANK" = None →
  Py.is_Ok (result (main w parameters fs)) = false
  ∧ epochs_executed (trace (main w parameters fs)) = []
  ∧ snapshots_written (trace (main w parameters fs)) = []
  ∧ files (main w parameters fs) = fs.
Proof.
  intros H. destruct parameters as [n|x|s|p]; try done. simpl.
  assert (Hab : ∀ {X} (π : Event → option X),
             (∀ path, π (LoadMNIST path) = None) →
             (∀ msg, π (LogInfo msg) = None) → (∀ msg, π (LogWarning msg) = None) →
             (∀ d, π (CudaSetDevice d) = None) → (∀ b', π (InitProcessGroup b') = None) →
             aborts π (main_body w p)).
  { intros X π H1 H2 H3 H4 H5. unfold main_body.
    apply aborts_bind_r; [by apply ddp_setup_quiet|intros _].
    apply aborts_bind_l. by apply construct_and_train_aborts. }
  destruct (Hab _ epoch_of ltac:(done) ltac:(done) ltac:(done) ltac:(done) ltac:(done) fs)
    as [Hr He].
  destruct (Hab _ write_of ltac:(done) ltac:(done) ltac:(done) ltac:(done) ltac:(done) fs)
    as [_ Hw].
  repeat split; try done.
  rewrite main_body_journaled. unfold snapshots_written in *. by rewrite Hw.
Qed.

(** C6, as amended: the process group is torn down once when setup,
    construction and the epoch loop all complete, and not at all when any
    of them raises; it is never torn down twice. *)
Theorem teardown_once_iff_completed (w : World) (parameters : Py.Value)
        (fs : gmap string Snapshot) :
  teardowns (trace (main w parameters fs)) =
  if Py.is_Ok (result (main w parameters fs)) then [()] else [].
Proof.
  destruct parameters as [n|x|s|p]; try done. simpl.
  unfold teardowns, main_body.
  rewrite quiet_then by (by apply ddp_setup_quiet).
  rewrite (bind_outcome (ddp_setup _ _)).
  destruct (result (ddp_setup w (Parameters.backend p) fs)) as [[]|e]; [|done]. simpl.
  rewrite quiet_then by apply construct_and_train_quiet_teardown.
  rewrite (bind_outcome (construct_and_train _ _)).
  by destruct (result (construct_and_train w p _)).
Qed.

(** *** Modules in training *)

Lemma similar_refl m : similar m m.
Proof. induction m; simpl; auto. Qed.

Lemma similar_trans m1 m2 m3 : similar m1 m2 → similar m2 m3 → similar m1 m3.
Proof.
  revert m2 m3. induction m1 as [p1|a IH i]; intros [p2|b j] [p3|c k]; simpl; try tauto.
  - congruence.
  - intros [-> H1] [-> H2]. eauto.
Qed.

Lemma similar_state_dict m1 m2 :
  similar m1 m2 → shape <$> state_dict m1 = shape <$> state_dict m2.
Proof.
  revert m2. induction m1 as [p1|a IH i]; intros [p2|b j]; simpl; try tauto.
  intros [_ H]. rewrite <- !kmap_fmap by apply _. by rewrite (IH b).
Qed.

Lemma optimizer_step_similar w e i m : similar m (optimizer_step w e i m).
Proof.
  induction m as [p|a IH ids]; simpl; [|auto].
  apply map_eq. intros k. rewrite !lookup_fmap, map_lookup_imap.
  by destruct (p !! k).
Qed.

Lemma assign_similar (p sd : gmap string Tensor) :
  shapes_agree p sd = true → similar (Net p) (assign (Net p) (fun k => sd !! k)).
Proof.
  intros H. apply bool_decide_eq_true in H. simpl.
  apply map_eq. intros k. rewrite !lookup_fmap, map_lookup_imap.
  destruct (p !! k) as [t|] eqn:Hk; simpl; [|done].
  specialize (H k t Hk). simpl in H. symmetry. exact H.
Qed.

Lemma evolves_refl a : evolves a a.
Proof. exists (model a). split; [by destruct a|apply similar_refl]. Qed.

Lemma evolves_trans a b c : evolves a b → evolves b c → evolves a c.
Proof.
  intros (m1 & -> & H1) (m2 & -> & H2). exists m2. split; [done|].
  simpl in H2. eauto using similar_trans.
Qed.

Lemma evolves_set_model a m : similar (model a) m → evolves a (set_model a m).
Proof. intros H. by exists m. Qed.

(** The state a trainer saves: that of the wrapped module when an
    accelerator is available, that of the wrapper otherwise. *)
Lemma similar_saved_state w m1 m2 :
  similar m1 m2 → shape <$> saved_state w m1 = shape <$> saved_state w m2.
Proof.
  intros H. unfold saved_state. destruct (cuda_is_available w).
  - destruct m1, m2; simpl in *; try tauto. apply similar_state_dict. tauto.
  - by apply similar_state_dict.
Qed.

(** *** The epoch loop *)

Lemma run_batch_outcome w self e i fs :
  _run_batch w self e i fs =
  {| result := Py.Ok (set_model self (optimizer_step w e i (model self)));
     files := fs; trace := [RunBatch e i] |}.
Proof. reflexivity. Qed.

Lemma run_batches_outcome w e (l : list nat) self fs :
  ∃ m, similar (model self) m
       ∧ for_each l self (fun self i => _run_batch w self e i) fs =
         {| result := Py.Ok (set_model self m); files := fs; trace := RunBatch e <$> l |}.
Proof.
  revert self. induction l as [|i l IH]; intros self.
  - exists (model self). split; [apply similar_refl|]. by destruct self.
  - destruct (IH (set_model self (optimizer_step w e i (model self)))) as (m & Hs & Heq).
    exists m. split.
    + eapply similar_trans; [apply optimizer_step_similar|exact Hs].
    + cbn [for_each]. rewrite bind_outcome, run_batch_outcome. cbn [result files trace].
      rewrite Heq. reflexivity.
Qed.

Lemma omap_run_batches {X} (π : Event → option X) e (l : list nat) :
  (∀ i, π (RunBatch e i) = None) → omap π (RunBatch e <$> l) = [].
Proof. intros H. induction l as [|i l IH]; simpl; [done|]. by rewrite H. Qed.

Lemma run_epoch_outcome w self e b fs :
  ∃ m tr, similar (model self) m
          ∧ epochs_executed tr = [] ∧ snapshots_written tr = []
          ∧ _run_epoch w self e b fs =
            {| result := Py.Ok (set_model self m); files := fs; trace := RunEpoch e :: tr |}.
Proof.
  destruct (run_batches_outcome w e (seq 0 (steps (train_data self))) self fs)
    as (m & Hs & Heq).
  unfold _run_epoch. rewrite !bind_outcome. cbn [emit result files trace].
  destruct (sampler_is_distributed (train_data self)); cbn [emit mret M_ret ret result files trace];
    rewrite Heq; cbn [result files trace app];
    eexists m, _; (split; [exact Hs|]); (split; [|split; [|reflexivity]]);
    unfold epochs_executed, snapshots_written; cbn [omap list_omap epoch_of write_of];
    by apply omap_run_batches.
Qed.

Lemma evolves_trainable a b : evolves a b → trainable a → trainable b.
Proof.
  intros (m & -> & Hs) [(inner & ids & Hw) Hz]. split; [|exact Hz].
  simpl. rewrite Hw in Hs. destruct m as [|inner' ids']; simpl in Hs; [tauto|].
  by exists inner', ids'.
Qed.

Ltac run :=
  repeat (progress (rewrite ?bind_outcome;
                    cbn [lift mret M_ret ret emit torch_save get_module
                         result files trace andb])).

Ltac observe :=
  unfold epochs_executed, snapshots_written in *;
  cbn [omap list_omap epoch_of write_of app];
  rewrite ?omap_app; cbn [omap list_omap epoch_of write_of app].

Lemma train_epoch_outcome w b self e fs :
  trainable self →
  ∃ self',
    result (train_epoch w b self e fs) = Py.Ok self'
    ∧ evolves self self'
    ∧ epochs_executed (trace (train_epoch w b self e fs)) = [e]
    ∧ snapshots_written (trace (train_epoch w b self e fs)) =
      if is_due (global_rank self) (save_every self) e
      then [(snapshot_path self, {| MODEL_STATE := saved_state w (model self'); EPOCHS_RUN := e |})]
      else [].
Proof.
  intros [(inner & ids & Hw) Hz].
  destruct (run_epoch_outcome w self e b fs) as (m & tr & Hs & He & Hsn & Heq).
  assert (Hm : wrapped m).
  { rewrite Hw in Hs. destruct m as [|i' d']; simpl in Hs; [tauto|]. by eexists _, _. }
  destruct Hm as (inner' & ids' & ->).
  exists (set_model self (DDP inner' ids')).
  unfold train_epoch. rewrite bind_outcome, Heq. cbn [result files trace].
  unfold is_due. cbn [global_rank save_every set_model].
  destruct (bool_decide (global_rank self = 0)) eqn:Hr.
  - apply bool_decide_eq_true in Hr. specialize (Hz Hr).
    unfold Py.mod_. rewrite bool_decide_false by done. run.
    destruct (bool_decide (e `mod` save_every self = 0)).
    + unfold _save_snapshot, saved_state. cbn [model set_model snapshot_path].
      destruct (cuda_is_available w); run;
        (split; [reflexivity|split; [by apply evolves_set_model|]]);
        observe; rewrite He, Hsn; done.
    + run. split; [reflexivity|split; [by apply evolves_set_model|]].
      observe. rewrite He, Hsn. done.
  - run. split; [reflexivity|split; [by apply evolves_set_model|]].
    observe. rewrite He, Hsn. done.
Qed.

Lemma evolves_fields a b :
  evolves a b →
  global_rank b = global_rank a ∧ save_every b = save_every a
  ∧ snapshot_path b = snapshot_path a ∧ epochs_run b = epochs_run a
  ∧ similar (model a) (model b).
Proof. intros (m & -> & Hs). by repeat split. Qed.

Lemma train_loop_outcome w b (l : list Z) self fs :
  trainable self →
  ∃ self',
    result (for_each l self (train_epoch w b) fs) = Py.Ok self'
    ∧ evolves self self'
    ∧ epochs_executed (trace (for_each l self (train_epoch w b) fs)) = l
    ∧ Forall2 (written_by w self)
              (List.filter (is_due (global_rank self) (save_every self)) l)
              (snapshots_written (trace (for_each l self (train_epoch w b) fs))).
Proof.
  revert self fs. induction l as [|e l IH]; intros self fs Ht.
  - exists self. repeat split; [apply evolves_refl|constructor].
  - destruct (train_epoch_outcome w b self e fs Ht) as (self1 & Hr & Hev & He & Hw).
    destruct (IH self1 (files (train_epoch w b self e fs)) (evolves_trainable _ _ Hev Ht))
      as (self2 & Hr2 & Hev2 & He2 & Hw2).
    destruct (evolves_fields _ _ Hev) as (Hg & Hs & Hp & _ & Hsim).
    exists self2. cbn [for_each]. rewrite bind_outcome, Hr. cbn [result files trace].
    split; [exact Hr2|]. split; [by eapply evolves_trans|].
    unfold epochs_executed, snapshots_written in *. rewrite !omap_app.
    split; [by rewrite He, He2|].
    rewrite Hw. cbn [List.filter]. rewrite Hg, Hs in Hw2.
    assert (Hrest : Forall2 (written_by w self)
                      (List.filter (is_due (global_rank self) (save_every self)) l)
                      (omap write_of (trace (for_each l self1 (train_epoch w b)
                                               (files (train_epoch w b self e fs)))))).
    { eapply Forall2_impl; [exact Hw2|]. intros e' ps (H1 & H2 & H3).
      unfold written_by. rewrite <- Hp, H3. repeat split; try done.
      symmetry. by apply similar_saved_state. }
    destruct (is_due (global_rank self) (save_every self) e); cbn [app]; [|exact Hrest].
    constructor; [|exact Hrest].
    unfold written_by. cbn [fst snd MODEL_STATE EPOCHS_RUN]. repeat split.
    symmetry. by apply similar_saved_state.
Qed.

(** *** Constructing a trainer *)

Ltac run_all :=
  repeat (progress (rewrite ?bind_outcome in *;
                    cbn [lift mret M_ret ret emit torch_save torch_load path_exists get_module
                         result files trace andb
                         local_rank global_rank model train_data optimizer save_every
                         epochs_run snapshot_path backend device set_model set_epochs_run
                         MODEL_STATE EPOCHS_RUN] in *)).

(** Symbolic execution of the computation in [H], splitting on every test
    and every call that may raise. *)
Ltac crunch H :=
  repeat (run_all; try discriminate H;
          match type of H with
          | context [if ?c then _ else _] => destruct c eqn:?
          | context [match ?x with Py.Ok _ => _ | Py.Raise _ => _ end] =>
              lazymatch x with
              | result _ => fail
              | _ => destruct x eqn:?
              end
          | context [match ?x with Some _ => _ | None => _ end] => destruct x eqn:?
          end).

Lemma load_state_dict_ok p sd m :
  load_state_dict (Net p) sd = Py.Ok m → similar (Net p) m.
Proof.
  unfold load_state_dict. cbn [state_dict].
  destruct (bool_decide (dom sd = dom p)); [|discriminate].
  destruct (shapes_agree p sd) eqn:Hs; [|discriminate].
  intros [= <-]. by apply assign_similar.
Qed.

Lemma load_state_dict_succeeds (p sd : gmap string Tensor) :
  shape <$> sd = shape <$> p →
  load_state_dict (Net p) sd = Py.Ok (assign (Net p) (fun k => sd !! k)).
Proof.
  intros H. unfold load_state_dict. cbn [state_dict].
  rewrite bool_decide_true.
  - unfold shapes_agree. rewrite bool_decide_true; [done|].
    intros k t Hk. rewrite <- lookup_fmap, H, lookup_fmap, Hk. done.
  - by rewrite <- (dom_fmap_L shape sd), H, dom_fmap_L.
Qed.

Lemma Trainer_init_ok w p td opt s path b fs t :
  result (Trainer_init w (Net p) td opt s path b fs) = Py.Ok t →
  save_every t = s ∧ snapshot_path t = path
  ∧ (∃ inner ids, model t = DDP inner ids ∧ similar (Net p) inner)
  ∧ epochs_run t = match fs !! path with Some snap => EPOCHS_RUN snap | None => 0 end
  ∧ (∃ r, environ w !! "RANK" = Some r ∧ Py.int_of_string r = Py.Ok (global_rank t)).
Proof.
  unfold Trainer_init, Py.environ_getitem, _load_snapshot, module_to.
  intros H.
  destruct (environ w !! "RANK") as [r|] eqn:Hr; [|crunch H].
  cbn [Py.int] in H.
  destruct (cuda_is_available w && bool_decide (b = "nccl")) eqn:Hc;
    destruct (fs !! path) as [snap|] eqn:Hf;
    crunch H; injection H as <-;
    cbn [save_every snapshot_path model epochs_run global_rank set_model set_epochs_run];
    repeat split; eauto using load_state_dict_ok, similar_refl;
    rewrite Hf in *; by simplify_eq.
Qed.

Lemma Trainer_init_files w m td opt s path b fs :
  files (Trainer_init w m td opt s path b fs) = fs.
Proof.
  assert (J : journaled (Trainer_init w m td opt s path b)).
  { unfold Trainer_init, _load_snapshot, module_to. journaled_tac. }
  rewrite J. unfold snapshots_written.
  rewrite Trainer_init_quiet; done.
Qed.

(** A construction that succeeded without a snapshot also succeeds with
    one whose state has the parameter names and shapes of the model. *)
Lemma Trainer_init_resumes w p td opt s path b fs0 fs1 t0 snap :
  result (Trainer_init w (Net p) td opt s path b fs0) = Py.Ok t0 →
  fs0 !! path = None →
  fs1 !! path = Some snap →
  shape <$> MODEL_STATE snap = shape <$> p →
  ∃ t1, result (Trainer_init w (Net p) td opt s path b fs1) = Py.Ok t1
        ∧ global_rank t1 = global_rank t0.
Proof.
  unfold Trainer_init, Py.environ_getitem, _load_snapshot, module_to.
  intros H H0 H1 Hsh.
  destruct (environ w !! "RANK") as [r|] eqn:Hr; [|crunch H].
  cbn [Py.int] in *.
  crunch H; rewrite ?H0 in *; simplify_eq.
  all: repeat (run_all;
               first [ progress rewrite H1
                     | progress rewrite (load_state_dict_succeeds _ _ Hsh)
                     | match goal with
                       | Hd : ?x = _ |- context [?x] => progress rewrite Hd
                       end ]).
  all: injection H as <-; eexists; split; reflexivity.
Qed.

(** *** Snapshot writes and resume *)

Lemma filter_is_due_writer s (l : list Z) :
  List.filter (is_due 0 s) l = List.filter (fun e => bool_decide (e `mod` s = 0)) l.
Proof. apply List.filter_ext. intros e. reflexivity. Qed.

Lemma filter_is_due_other g s (l : list Z) :
  g ≠ 0 → List.filter (is_due g s) l = [].
Proof.
  intros Hg. induction l as [|e l IH]; [done|].
  cbn [List.filter]. unfold is_due at 1. by rewrite bool_decide_false.
Qed.

(** C3: with [0 < save_every <= epochs] and no prior snapshot, a trainer
    that was constructed runs [train] to the end, executing the epochs
    [0 .. epochs-1]; the number of snapshots it writes is the number of
    those epochs [e] with [e mod save_every = 0] if its global rank is 0,
    and zero on every other rank. *)
Theorem snapshot_writes_count (w : World) (p : gmap string Tensor) (td : DataLoader)
        (opt : Optimizer) (s : Z) (path b b' : string) (fs fs' : gmap string Snapshot)
        (t : Trainer) (N : Z) :
  0 < s ≤ N →
  fs !! path = None →
  result (Trainer_init w (Net p) td opt s path b fs) = Py.Ok t →
  Py.is_Ok (result (train w t N b' fs')) = true
  ∧ epochs_executed (trace (train w t N b' fs')) = Py.range 0 N
  ∧ length (snapshots_written (trace (train w t N b' fs'))) =
    if bool_decide (global_rank t = 0)
    then length (List.filter (fun e => bool_decide (e `mod` s = 0)) (Py.range 0 N))
    else 0%nat.
Proof.
  intros Hs Hf Hinit.
  destruct (Trainer_init_ok _ _ _ _ _ _ _ _ _ Hinit) as (Hse & _ & (inner & ids & Hm & _) & He & _).
  rewrite Hf in He.
  assert (Ht : trainable t).
  { split; [by exists inner, ids|]. intros _. lia. }
  unfold train. rewrite He.
  destruct (train_loop_outcome w b' (Py.range 0 N) t fs' Ht) as (t' & Hr & _ & Hep & Hw).
  rewrite Hr. split; [done|]. split; [exact Hep|].
  rewrite <- (Forall2_length _ _ _ Hw), Hse.
  destruct (bool_decide (global_rank t = 0)) eqn:Hg.
  - apply bool_decide_eq_true in Hg. by rewrite Hg, filter_is_due_writer.
  - apply bool_decide_eq_false in Hg. by rewrite filter_is_due_other.
Qed.


Lemma train_journaled w self n b : journaled (train w self n b).
Proof.
  unfold train. apply journaled_for_each. intros.
  unfold train_epoch, _run_epoch, _run_batch, _save_snapshot. journaled_tac.
Qed.

Lemma train_quiet_epochs_before w m td opt s path b :
  quiet epoch_of (Trainer_init w m td opt s path b).
Proof. by apply Trainer_init_quiet. Qed.

(** What [construct_and_train] is, after the training objects are loaded. *)
Lemma construct_and_train_outcome w p fs :
  construct_and_train w p fs =
  let o := (trainer ← Trainer_init w (Net_new w)
                        (prepare_dataloader w (Parameters.batch_size p)
                           (cuda_is_available w
                            && bool_decide (Parameters.backend p = "nccl")))
                        {| learning_rate := Parameters.lr p |}
                        (Parameters.save_every p) (Parameters.snapshot_path p)
                        (Parameters.backend p);
            train w trainer (Parameters.epochs p) (Parameters.backend p)) fs in
  {| result := result o; files := files o;
     trace := LoadMNIST (Parameters.dataset_path p) :: trace o |}.
Proof.
  unfold construct_and_train, load_train_objs. rewrite (bind_outcome (_ ≫= _)).
  rewrite (bind_outcome (emit _)). cbn [emit mret M_ret ret result files trace app].
  reflexivity.
Qed.

Lemma range_head (a b : Z) : a < b → Py.range a b = a :: Py.range (a + 1) b.
Proof.
  intros H. unfold Py.range.
  replace (Z.to_nat (b - a)) with (S (Z.to_nat (b - (a + 1)))) by lia.
  cbn [seq map]. f_equal; [lia|].
  rewrite <- seq_shift, map_map. apply map_ext. intros i. lia.
Qed.


Lemma Net_new_has_conv1_weight w :
  is_Some (state_dict (Net_new w) !! "conv1.weight").
Proof. eexists. reflexivity. Qed.

(** A state whose keys all carry the [module.] prefix cannot be loaded
    into a fresh [Net()]. *)
Lemma load_prefixed_state_fails w (sd : gmap string Tensor) :
  Py.is_Ok (load_state_dict (Net_new w) (kmap (String.append "module.") sd)) = false.
Proof.
  unfold load_state_dict.
  rewrite bool_decide_false; [done|].
  intros Hdom.
  pose proof (Net_new_has_conv1_weight w) as Hin.
  apply elem_of_dom in Hin. rewrite <- Hdom in Hin. apply elem_of_dom in Hin as [t Ht].
  apply (lookup_kmap_Some (String.append "module.")) in Ht as (k & Hk & _).
  discriminate Hk.
Qed.

(** C9: without accelerator, [_save_snapshot] stores the state of the
    wrapped model, whose keys carry the [module.] prefix, and the
    construction of the next trainer on a fresh [Net()] raises when it
    loads that snapshot: save and load do not round-trip. *)
Theorem cpu_snapshot_does_not_round_trip (w : World) (self : Trainer) (inner : NNModule)
        (ids : option (list Z)) (e : Z) (fs : gmap string Snapshot)
        (td : DataLoader) (opt : Optimizer) (s : Z) (b : string) :
  device_count w = 0%nat →
  model self = DDP inner ids →
  files (_save_snapshot w self e fs) !! snapshot_path self =
    Some {| MODEL_STATE := kmap (String.append "module.") (state_dict inner);
            EPOCHS_RUN := e |}
  ∧ Py.is_Ok (result (Trainer_init w (Net_new w) td opt s (snapshot_path self) b
                        (files (_save_snapshot w self e fs)))) = false.
Proof.
  intros Hdev Hm.
  assert (Hlook : files (_save_snapshot w self e fs) !! snapshot_path self =
                  Some {| MODEL_STATE := kmap (String.append "module.") (state_dict inner);
                          EPOCHS_RUN := e |}).
  { unfold _save_snapshot. rewrite (cuda_unavailable w Hdev), Hm. run.
    cbn [state_dict]. apply lookup_insert_eq. }
  split; [exact Hlook|].
  set (fs1 := files _) in *. clearbody fs1.
  destruct (result (Trainer_init _ _ _ _ _ _ _ _)) as [t|] eqn:H; [exfalso|done].
  unfold Trainer_init, Py.environ_getitem, _load_snapshot, module_to in H.
  rewrite (cuda_unavailable w Hdev) in H. cbn [andb] in H.
  crunch H; rewrite ?Hlook in *; simplify_eq;
    match goal with
    | Hl : load_state_dict _ _ = Py.Ok _ |- _ =>
        cbn [MODEL_STATE] in Hl;
        pose proof (load_prefixed_state_fails w (state_dict inner)) as Hbad;
        rewrite Hl in Hbad; discriminate Hbad
    end.
Qed.

(** ** The statements on concrete runs *)

(** C1: on a one-device machine, training one epoch with a snapshot after
    every epoch completes epoch 0 and stores [EPOCHS_RUN = 0], not 1; the
    next run resumes at 0 and runs epoch 0 again. *)
Theorem snapshot_after_epoch_0_stores_0 :
  let w := Example.gpu_box in
  let p := Example.parameters 1 1 "nccl" in
  let first := main_body w p ∅ in
  result first = Py.Ok ()
  ∧ epochs_executed (trace first) = [0]
  ∧ EPOCHS_RUN <$> files first !! "snapshot_mnist.pt" = Some 0
  ∧ epochs_executed (trace (main_body w p (files first))) = [0].
Proof. vm_compute. repeat split. Qed.

(** Whatever the trainer and the store, [_save_snapshot] after epoch [e]
    writes the epoch index [e] itself. *)
Lemma save_snapshot_stores_epoch_index (w : World) (self : Trainer) (e : Z)
      (fs : gmap string Snapshot) :
  Forall (fun ps => EPOCHS_RUN ps.2 = e)
         (snapshots_written (trace (_save_snapshot w self e fs))).
Proof.
  unfold _save_snapshot.
  destruct (cuda_is_available w); [destruct (model self)|]; run;
    unfold snapshots_written; cbn; repeat constructor.
Qed.



Lemma snapshot_writes_count_witness :
  let w := Example.cpu_box in
  ∃ t, result (Trainer_init w (Net_new w) Example.loader Example.adam 2
                 "snapshot_mnist.pt" "gloo" ∅) = Py.Ok t
       ∧ Py.is_Ok (result (train w t 5 "gloo" ∅)) = true
       ∧ epochs_executed (trace (train w t 5 "gloo" ∅)) = Py.range 0 5
       ∧ length (snapshots_written (trace (train w t 5 "gloo" ∅))) =
         if bool_decide (global_rank t = 0)
         then length (List.filter (fun e => bool_decide (e `mod` 2 = 0)) (Py.range 0 5))
         else 0%nat.
Proof.
  intros w. eexists. split.
  - vm_compute. reflexivity.
  - apply (snapshot_writes_count w (state_dict (Net_new w)) Example.loader Example.adam 2
             "snapshot_mnist.pt" "gloo" "gloo" ∅ ∅ _ 5).
    + lia.
    + reflexivity.
    + vm_compute. reflexivity.
Defined.

(** C4: without [LOCAL_RANK], setup resolves the local rank to 0 but the
    trainer resolves it to -1: on a machine without accelerator the
    trainer is constructed with [local_rank = -1], and with an accelerator
    and [nccl] its construction raises on the device string [cuda:-1]
    after setup has bound device 0. *)
Theorem trainer_local_rank_defaults_to_minus_one :
  (∃ t, result (Trainer_init Example.cpu_box (Net_new Example.cpu_box) Example.loader
                  Example.adam 1 "snapshot_mnist.pt" "gloo" ∅) = Py.Ok t
        ∧ local_rank t = -1)
  ∧ device_binds (trace (ddp_setup Example.gpu_box_no_local_rank "nccl" ∅)) = [Cuda 0]
  ∧ result (main_body Example.gpu_box_no_local_rank (Example.parameters 1 1 "nccl") ∅)
    = Py.Raise (Py.RuntimeError "Invalid device string: 'cuda:-1'").
Proof.
  split; [eexists; split; [vm_compute; reflexivity|reflexivity]|].
  split; vm_compute; reflexivity.
Qed.

(** C5: with two devices and [LOCAL_RANK=2], setup clamps to device 0 with
    a warning, but the trainer then places the model on [cuda:2], which is
    out of range, and the run raises. *)
Theorem trainer_binds_unclamped_local_rank :
  let w := Example.gpu_box_rank_2 in
  let run := main_body w (Example.parameters 1 1 "nccl") ∅ in
  warnings (trace run) = ["Warning: Invalid device ordinal 2. Defaulting to device 0."]
  ∧ device_binds (trace run) = [Cuda 0; Cuda 2]
  ∧ device_in_range w (Cuda 2) = false
  ∧ result run = Py.Raise (Py.RuntimeError "CUDA error: invalid device ordinal").
Proof. vm_compute. repeat split. Qed.

(** C6 fails as stated: when [RANK] is missing the run raises and the
    process group is never torn down. *)
Lemma teardown_counterexample :
  let run := main Example.box_without_rank (Py.VDict (Example.parameters 1 1 "gloo")) ∅ in
  Py.is_Ok (result run) = false ∧ ¬ teardowns (trace run) = [()].
Proof. split; [reflexivity|]. vm_compute. discriminate. Qed.

Lemma missing_rank_witness :
  let run := main Example.box_without_rank (Py.VDict (Example.parameters 2 1 "gloo")) ∅ in
  environ Example.box_without_rank !! "RANK" = None
  ∧ Py.is_Ok (result run) = false
  ∧ epochs_executed (trace run) = []
  ∧ snapshots_written (trace run) = []
  ∧ files run = ∅.
Proof.
  split; [reflexivity|].
  apply (missing_rank_aborts_before_training Example.box_without_rank
           (Py.VDict (Example.parameters 2 1 "gloo")) ∅).
  reflexivity.
Defined.

(** C8 fails as stated: the fallback logs at level INFO; no record at
    level WARNING is logged. *)
Lemma fallback_warning_counterexample :
  ¬ ∃ msg, LogWarning msg ∈ trace (ddp_setup Example.cpu_box "nccl" ∅).
Proof.
  intros (msg & H). vm_compute in H.
  repeat (apply elem_of_cons in H as [H|H]; [discriminate H|]).
  by apply elem_of_nil in H.
Qed.

Lemma ddp_setup_falls_back_witness :
  device_count Example.cpu_box = 0%nat
  ∧ ddp_setup Example.cpu_box "nccl" ∅ =
    {| result := Py.Ok (); files := ∅;
       trace := [LogInfo "No GPU available, falling back to CPU."; InitProcessGroup "gloo"] |}.
Proof.
  split; [reflexivity|].
  apply (ddp_setup_falls_back_to_gloo Example.cpu_box ∅). reflexivity.
Defined.

Lemma cpu_trainer_constructed :
  result (Trainer_init Example.cpu_box (Net_new Example.cpu_box) Example.loader
            Example.adam 1 "snapshot_mnist.pt" "gloo" ∅) = Py.Ok Example.cpu_trainer.
Proof. vm_compute. reflexivity. Qed.

Lemma cpu_snapshot_witness :
  let w := Example.cpu_box in
  let self := Example.cpu_trainer in
  files (_save_snapshot w self 0 ∅) !! snapshot_path self =
    Some {| MODEL_STATE := kmap (String.append "module.") (state_dict (Net_new w));
            EPOCHS_RUN := 0 |}
  ∧ Py.is_Ok (result (Trainer_init w (Net_new w) Example.loader Example.adam 1
                        (snapshot_path self) "gloo"
                        (files (_save_snapshot w self 0 ∅)))) = false.
Proof.
  intros w self.
  apply (cpu_snapshot_does_not_round_trip w self (Net_new w) None 0 ∅
           Example.loader Example.adam 1 "gloo"); reflexivity.
Defined.

(** ** Further properties of the script *)

(** *** More on process-group setup *)

(** X1: whatever the machine, the environment and the requested backend,
    [ddp_setup] never selects a device whose index is at or above the
    device count. *)
Theorem ddp_setup_device_below_count (w : World) (b : string) (fs : gmap string Snapshot) :
  Forall (fun d => d < Z.of_nat (device_count w)) (devices_set (trace (ddp_setup w b fs))).
Proof.
  unfold ddp_setup, devices_set.
  destruct (cuda_is_available w && bool_decide (b = "nccl")) eqn:Hc; [|run; by cbn].
  apply andb_true_iff in Hc as [Hc _]. apply bool_decide_eq_true in Hc.
  run. destruct (Py.int _) as [n|err]; run; [|by cbn].
  destruct (bool_decide (Z.of_nat (device_count w) ≤ n)) eqn:Hn; run; cbn.
  - repeat constructor. lia.
  - apply bool_decide_eq_false in Hn. repeat constructor. lia.
Qed.





(** X4: any backend other than [nccl] is replaced by [gloo], with the
    record "No GPU available, falling back to CPU.", whether or not the
    machine has accelerators; no device is selected and the environment is
    not read. *)
Theorem ddp_setup_other_backend_is_gloo (w : World) (b : string) (fs : gmap string Snapshot) :
  b ≠ "nccl" →
  ddp_setup w b fs =
  {| result := Py.Ok (); files := fs;
     trace := [LogInfo "No GPU available, falling back to CPU."; InitProcessGroup "gloo"] |}.
Proof.
  intros Hb. unfold ddp_setup. rewrite (bool_decide_false _ Hb), andb_false_r. reflexivity.
Qed.

Lemma ddp_setup_other_backend_is_gloo_witness :
  ddp_setup Example.gpu_box "mpi" ∅ =
  {| result := Py.Ok (); files := ∅;
     trace := [LogInfo "No GPU available, falling back to CPU."; InitProcessGroup "gloo"] |}.
Proof.
  apply (ddp_setup_other_backend_is_gloo Example.gpu_box "mpi" ∅). discriminate.
Defined.



(** X23: with an accelerator and the [nccl] backend, a missing
    [LOCAL_RANK] makes [ddp_setup] select device 0, without a warning. *)
Theorem ddp_setup_defaults_to_device_0 (w : World) (fs : gmap string Snapshot) :
  cuda_is_available w = true →
  environ w !! "LOCAL_RANK" = None →
  ddp_setup w "nccl" fs =
  {| result := Py.Ok (); files := fs;
     trace := [CudaSetDevice 0; InitProcessGroup "nccl"] |}.
Proof. apply ddp_setup_default_local_rank. Qed.

Lemma ddp_setup_defaults_to_device_0_witness :
  ddp_setup Example.gpu_box_no_local_rank "nccl" ∅ =
  {| result := Py.Ok (); files := ∅;
     trace := [CudaSetDevice 0; InitProcessGroup "nccl"] |}.
Proof.
  apply (ddp_setup_defaults_to_device_0 Example.gpu_box_no_local_rank ∅); reflexivity.
Defined.

(** *** More on the epoch loop *)

Lemma set_model_same self : set_model self (model self) = self.
Proof. by destruct self. Qed.

Lemma run_batches_exact w e (l : list nat) self fs :
  for_each l self (fun self i => _run_batch w self e i) fs =
  {| result := Py.Ok (set_model self (after_batches w e l (model self)));
     files := fs; trace := RunBatch e <$> l |}.
Proof.
  revert self. induction l as [|i l IH]; intros self.
  - cbn. by rewrite set_model_same.
  - cbn [for_each]. rewrite bind_outcome, run_batch_outcome. cbn [result files trace].
    rewrite IH. reflexivity.
Qed.

(** The outcome of one call of [_run_epoch]. *)
Lemma run_epoch_exact (w : World) (self : Trainer) (e : Z) (b : string)
        (fs : gmap string Snapshot) :
  _run_epoch w self e b fs =
  {| result := Py.Ok (set_model self
                        (after_batches w e (seq 0 (steps (train_data self))) (model self)));
     files := fs;
     trace := epoch_trace w self e b |}.
Proof.
  unfold _run_epoch, epoch_trace. rewrite !bind_outcome. cbn [emit result files trace].
  destruct (sampler_is_distributed (train_data self));
    cbn [emit mret M_ret ret result files trace]; rewrite run_batches_exact; reflexivity.
Qed.


Lemma range_empty (a b : Z) : b ≤ a → Py.range a b = [].
Proof. intros H. unfold Py.range. by replace (Z.to_nat (b - a)) with 0%nat by lia. Qed.

(** X7: [train] with [max_epochs] at or below the trainer's [epochs_run]
    does nothing: it returns the trainer as it is, with no event and no
    file change. *)
Theorem train_nothing_left (w : World) (self : Trainer) (N : Z) (b : string)
        (fs : gmap string Snapshot) :
  N ≤ epochs_run self →
  train w self N b fs = {| result := Py.Ok self; files := fs; trace := [] |}.
Proof. intros H. unfold train. rewrite range_empty by done. reflexivity. Qed.

Lemma train_nothing_left_witness :
  train Example.cpu_box (set_epochs_run Example.cpu_trainer 3) 3 "gloo" ∅ =
  {| result := Py.Ok (set_epochs_run Example.cpu_trainer 3); files := ∅; trace := [] |}.
Proof.
  apply (train_nothing_left Example.cpu_box (set_epochs_run Example.cpu_trainer 3) 3 "gloo" ∅).
  reflexivity.
Defined.

Lemma written_epochs w self (due : list Z) (writes : list (string * Snapshot)) :
  Forall2 (written_by w self) due writes →
  (fun ps => (ps.1, EPOCHS_RUN ps.2)) <$> writes = (fun e => (snapshot_path self, e)) <$> due.
Proof.
  induction 1 as [|e ps due writes (H1 & H2 & _) _ IH]; [done|].
  cbn. by rewrite IH, H1, H2.
Qed.

(** X8: for a trainer with a wrapped model, whose period is not zero if
    it is the writer, [train] returns; it runs exactly the epochs of
    [range(epochs_run, max_epochs)] in order, and writes one snapshot, at
    its snapshot path and holding the epoch index, after each of those
    epochs that is due ([global_rank = 0] and [epoch mod save_every = 0]);
    the returned trainer has the same ranks, period, path and [epochs_run]. *)
Theorem train_runs_remaining_epochs (w : World) (self : Trainer) (inner : NNModule)
        (ids : option (list Z)) (N : Z) (b : string) (fs : gmap string Snapshot) :
  model self = DDP inner ids →
  (global_rank self = 0 → save_every self ≠ 0) →
  ∃ self',
    result (train w self N b fs) = Py.Ok self'
    ∧ epochs_executed (trace (train w self N b fs)) = Py.range (epochs_run self) N
    ∧ (fun ps => (ps.1, EPOCHS_RUN ps.2)) <$> snapshots_written (trace (train w self N b fs))
      = (fun e => (snapshot_path self, e))
          <$> List.filter (is_due (global_rank self) (save_every self))
                          (Py.range (epochs_run self) N)
    ∧ global_rank self' = global_rank self ∧ save_every self' = save_every self
    ∧ snapshot_path self' = snapshot_path self ∧ epochs_run self' = epochs_run self.
Proof.
  intros Hm Hz.
  assert (Ht : trainable self) by (split; [by exists inner, ids|done]).
  destruct (train_loop_outcome w b (Py.range (epochs_run self) N) self fs Ht)
    as (self' & Hr & Hev & He & Hw).
  destruct (evolves_fields _ _ Hev) as (H1 & H2 & H3 & H4 & _).
  exists self'. unfold train. repeat split; try done.
  by apply written_epochs with (w := w).
Qed.

Lemma train_runs_remaining_epochs_witness :
  let self := set_epochs_run Example.cpu_trainer 2 in
  ∃ self',
    result (train Example.cpu_box self 5 "gloo" ∅) = Py.Ok self'
    ∧ epochs_executed (trace (train Example.cpu_box self 5 "gloo" ∅)) = Py.range 2 5
    ∧ (fun ps => (ps.1, EPOCHS_RUN ps.2))
        <$> snapshots_written (trace (train Example.cpu_box self 5 "gloo" ∅))
      = (fun e => (snapshot_path self, e))
          <$> List.filter (is_due (global_rank self) (save_every self)) (Py.range 2 5)
    ∧ global_rank self' = global_rank self ∧ save_every self' = save_every self
    ∧ snapshot_path self' = snapshot_path self ∧ epochs_run self' = epochs_run self.
Proof.
  intros self.
  apply (train_runs_remaining_epochs Example.cpu_box self (Net_new Example.cpu_box) None
           5 "gloo" ∅).
  - reflexivity.
  - intros _. discriminate.
Defined.

Lemma train_epoch_zero_period w b self e fs :
  global_rank self = 0 →
  save_every self = 0 →
  train_epoch w b self e fs =
  {| result := Py.Raise (Py.ZeroDivisionError "integer modulo by zero");
     files := fs; trace := epoch_trace w self e b |}.
Proof.
  intros Hg Hs. unfold train_epoch.
  rewrite bind_outcome, run_epoch_exact.
  cbn [result files trace global_rank save_every set_model].
  rewrite Hg, Hs. rewrite bool_decide_true by done. unfold Py.mod_.
  rewrite bool_decide_true by done. run. by rewrite app_nil_r.
Qed.

Lemma epoch_trace_epochs w self e b : epochs_executed (epoch_trace w self e b) = [e].
Proof.
  unfold epochs_executed, epoch_trace. cbn [app omap list_omap epoch_of].
  rewrite omap_app, omap_run_batches by done.
  by destruct (sampler_is_distributed (train_data self)).
Qed.

Lemma epoch_trace_writes w self e b : snapshots_written (epoch_trace w self e b) = [].
Proof.
  unfold snapshots_written, epoch_trace. cbn [app omap list_omap write_of].
  rewrite omap_app, omap_run_batches by done.
  by destruct (sampler_is_distributed (train_data self)).
Qed.

(** X9: on the writer (global rank 0) a period of zero makes [train]
    raise [ZeroDivisionError] right after the first remaining epoch has
    run: that epoch is executed, nothing is written and no file changes. *)
Theorem train_zero_period_raises (w : World) (self : Trainer) (N : Z) (b : string)
        (fs : gmap string Snapshot) :
  global_rank self = 0 →
  save_every self = 0 →
  epochs_run self < N →
  result (train w self N b fs) = Py.Raise (Py.ZeroDivisionError "integer modulo by zero")
  ∧ epochs_executed (trace (train w self N b fs)) = [epochs_run self]
  ∧ snapshots_written (trace (train w self N b fs)) = []
  ∧ files (train w self N b fs) = fs.
Proof.
  intros Hg Hs HN. unfold train. rewrite range_head by done. cbn [for_each].
  rewrite bind_outcome, train_epoch_zero_period by done. cbn [result files trace].
  by rewrite epoch_trace_epochs, epoch_trace_writes.
Qed.

Lemma train_zero_period_raises_witness :
  let self := Trainers.cpu_trainer_period_0 in
  result (train Example.cpu_box self 2 "gloo" ∅)
  = Py.Raise (Py.ZeroDivisionError "integer modulo by zero")
  ∧ epochs_executed (trace (train Example.cpu_box self 2 "gloo" ∅)) = [epochs_run self]
  ∧ snapshots_written (trace (train Example.cpu_box self 2 "gloo" ∅)) = []
  ∧ files (train Example.cpu_box self 2 "gloo" ∅) = ∅.
Proof.
  intros self.
  apply (train_zero_period_raises Example.cpu_box self 2 "gloo" ∅); reflexivity.
Defined.

(** X10: on a process that is not the writer the period is never used:
    with [save_every = 0] and a non-zero global rank [train] still
    returns, runs all remaining epochs and writes nothing. *)
Theorem train_zero_period_other_rank (w : World) (self : Trainer) (inner : NNModule)
        (ids : option (list Z)) (N : Z) (b : string) (fs : gmap string Snapshot) :
  model self = DDP inner ids →
  global_rank self ≠ 0 →
  save_every self = 0 →
  Py.is_Ok (result (train w self N b fs)) = true
  ∧ epochs_executed (trace (train w self N b fs)) = Py.range (epochs_run self) N
  ∧ snapshots_written (trace (train w self N b fs)) = []
  ∧ files (train w self N b fs) = fs.
Proof.
  intros Hm Hg Hs.
  assert (Ht : trainable self) by (split; [by exists inner, ids|done]).
  destruct (train_loop_outcome w b (Py.range (epochs_run self) N) self fs Ht)
    as (self' & Hr & _ & He & Hw).
  rewrite filter_is_due_other in Hw by done. apply Forall2_nil_inv_l in Hw.
  rewrite train_journaled. unfold train in *. rewrite Hr, Hw. by repeat split.
Qed.

Lemma train_zero_period_other_rank_witness :
  let self := Trainers.cpu_trainer_rank_1 in
  Py.is_Ok (result (train Example.cpu_box self 2 "gloo" ∅)) = true
  ∧ epochs_executed (trace (train Example.cpu_box self 2 "gloo" ∅))
    = Py.range (epochs_run self) 2
  ∧ snapshots_written (trace (train Example.cpu_box self 2 "gloo" ∅)) = []
  ∧ files (train Example.cpu_box self 2 "gloo" ∅) = ∅.
Proof.
  intros self.
  apply (train_zero_period_other_rank Example.cpu_box self (Net_new Example.cpu_box) None
           2 "gloo" ∅); first [reflexivity | discriminate].
Defined.

(** X11: [train] does not advance [epochs_run]: calling it a second time
    on the trainer it returned runs the same epochs again. *)
Theorem train_twice_repeats_epochs (w : World) (self : Trainer) (inner : NNModule)
        (ids : option (list Z)) (N : Z) (b : string) (fs : gmap string Snapshot) :
  model self = DDP inner ids →
  (global_rank self = 0 → save_every self ≠ 0) →
  epochs_executed (trace ((t ← train w self N b; train w t N b) fs))
  = Py.range (epochs_run self) N ++ Py.range (epochs_run self) N.
Proof.
  intros Hm Hz.
  assert (Ht : trainable self) by (split; [by exists inner, ids|done]).
  destruct (train_loop_outcome w b (Py.range (epochs_run self) N) self fs Ht)
    as (self' & Hr & Hev & He & _).
  destruct (evolves_fields _ _ Hev) as (_ & _ & _ & H4 & _).
  change (for_each (Py.range (epochs_run self) N) self (train_epoch w b) fs)
    with (train w self N b fs) in *.
  rewrite bind_outcome, Hr. cbn [result files trace].
  unfold epochs_executed in *. rewrite omap_app, He. f_equal.
  destruct (train_loop_outcome w b (Py.range (epochs_run self') N) self'
              (files (train w self N b fs)) (evolves_trainable _ _ Hev Ht))
    as (self'' & _ & _ & He' & _).
  unfold train at 1. unfold epochs_executed in He'. rewrite He'. by rewrite H4.
Qed.

Lemma train_twice_repeats_epochs_witness :
  epochs_executed
    (trace ((t ← train Example.cpu_box Example.cpu_trainer 2 "gloo";
             train Example.cpu_box t 2 "gloo") ∅))
  = Py.range (epochs_run Example.cpu_trainer) 2 ++ Py.range (epochs_run Example.cpu_trainer) 2.
Proof.
  apply (train_twice_repeats_epochs Example.cpu_box Example.cpu_trainer
           (Net_new Example.cpu_box) None 2 "gloo" ∅).
  - reflexivity.
  - intros _. discriminate.
Defined.

(** *** More on constructing a trainer *)

Lemma torch_device_cuda_ok i d :
  torch_device_cuda i = Py.Ok d → d = Cuda i ∧ 0 ≤ i.
Proof.
  unfold torch_device_cuda. destruct (bool_decide (i < 0)) eqn:H; [discriminate|].
  apply bool_decide_eq_false in H. intros [= <-]. split; [done|lia].
Qed.

(** What a successful construction fixes besides the facts of
    [Trainer_init_ok]. *)
Lemma Trainer_init_facts w p td opt s path b fs t :
  result (Trainer_init w (Net p) td opt s path b fs) = Py.Ok t →
  Py.int (Py.environ_get (environ w) "LOCAL_RANK" (Py.VInt (-1))) = Py.Ok (local_rank t)
  ∧ device t = (if cuda_is_available w && bool_decide (b = "nccl")
                then Cuda (local_rank t) else Cpu)
  ∧ device_in_range w (device t) = true
  ∧ backend t = b ∧ train_data t = td ∧ optimizer t = opt
  ∧ (∃ inner,
        model t = DDP inner (if cuda_is_available w && bool_decide (b = "nccl")
                             then Some [local_rank t] else None)
        ∧ match fs !! path with
          | Some snap => load_state_dict (Net p) (MODEL_STATE snap) = Py.Ok inner
          | None => inner = Net p
          end)
  ∧ directories_made (trace (Trainer_init w (Net p) td opt s path b fs)) =
    if bool_decide (Py.dirname path ≠ "") then [Py.dirname path] else [].
Proof.
  unfold Trainer_init, Py.environ_getitem, _load_snapshot, module_to, directories_made.
  intros H.
  destruct (environ w !! "RANK") as [r|] eqn:Hr; [|crunch H].
  cbn [Py.int] in H.
  crunch H.
  all: injection H as <-.
  all: run_all.
  all: cbn [local_rank device backend train_data optimizer model set_model set_epochs_run
            omap list_omap makedirs_of app].
  all: repeat match goal with
         | Hd : torch_device_cuda _ = Py.Ok _ |- _ =>
             apply torch_device_cuda_ok in Hd as [-> ?]
         end.
  all: repeat split; try done.
  all: eexists; split; [reflexivity|].
  all: destruct (fs !! path); by simplify_eq.
Qed.


(** X13: a trainer constructed on a store that holds a snapshot starts at
    the stored value: its [epochs_run] is the snapshot's [EPOCHS_RUN], and
    its [train] (which returns, if the period is not zero on the writer)
    runs exactly the epochs from that value up to [max_epochs]. *)
Theorem resume_starts_at_stored_epoch (w : World) (p : gmap string Tensor) (td : DataLoader)
        (opt : Optimizer) (s : Z) (path b b' : string) (fs fs' : gmap string Snapshot)
        (snap : Snapshot) (t : Trainer) (N : Z) :
  fs !! path = Some snap →
  result (Trainer_init w (Net p) td opt s path b fs) = Py.Ok t →
  (global_rank t = 0 → s ≠ 0) →
  epochs_run t = EPOCHS_RUN snap
  ∧ Py.is_Ok (result (train w t N b' fs')) = true
  ∧ epochs_executed (trace (train w t N b' fs')) = Py.range (EPOCHS_RUN snap) N.
Proof.
  intros Hf Hinit Hz.
  destruct (Trainer_init_ok _ _ _ _ _ _ _ _ _ Hinit)
    as (Hse & _ & (inner & ids & Hm & _) & He & _).
  rewrite Hf in He. split; [exact He|].
  assert (Ht : trainable t) by (split; [by exists inner, ids|by rewrite Hse]).
  destruct (train_loop_outcome w b' (Py.range (epochs_run t) N) t fs' Ht)
    as (t' & Hr & _ & Hep & _).
  unfold train. rewrite Hr, Hep, He. done.
Qed.

Lemma resume_starts_at_stored_epoch_witness :
  let w := Example.gpu_box in
  let fs := files (main_body w (Example.parameters 3 2 "nccl") ∅) in
  ∃ snap t,
    fs !! "snapshot_mnist.pt" = Some snap
    ∧ result (Trainer_init w (Net_new w) Example.loader Example.adam 2
                "snapshot_mnist.pt" "nccl" fs) = Py.Ok t
    ∧ epochs_run t = EPOCHS_RUN snap
    ∧ Py.is_Ok (result (train w t 5 "nccl" ∅)) = true
    ∧ epochs_executed (trace (train w t 5 "nccl" ∅)) = Py.range (EPOCHS_RUN snap) 5.
Proof.
  intros w fs. eexists _, _. split; [vm_compute; reflexivity|].
  split; [vm_compute; reflexivity|].
  eapply (resume_starts_at_stored_epoch w (state_dict (Net_new w)) Example.loader Example.adam
            2 "snapshot_mnist.pt" "nccl" "nccl" fs ∅ _ _ 5).
  - vm_compute. reflexivity.
  - vm_compute. reflexivity.
  - intros _. discriminate.
Defined.

(** X14: a trainer is constructed only on a valid device.  On the
    accelerator path (an accelerator is available and the backend is
    [nccl]) construction succeeds only if [LOCAL_RANK] is an index below
    the device count and not negative; the model is then placed on that
    device and wrapped with that device id.  On every other path the
    device is the CPU and the wrapper gets no device id, whatever
    [LOCAL_RANK] is. *)
Theorem constructed_trainer_device (w : World) (p : gmap string Tensor) (td : DataLoader)
        (opt : Optimizer) (s : Z) (path b : string) (fs : gmap string Snapshot)
        (t : Trainer) :
  result (Trainer_init w (Net p) td opt s path b fs) = Py.Ok t →
  Py.int (Py.environ_get (environ w) "LOCAL_RANK" (Py.VInt (-1))) = Py.Ok (local_rank t)
  ∧ if cuda_is_available w && bool_decide (b = "nccl")
    then 0 ≤ local_rank t < Z.of_nat (device_count w)
         ∧ device t = Cuda (local_rank t)
         ∧ ∃ inner, model t = DDP inner (Some [local_rank t])
    else device t = Cpu ∧ ∃ inner, model t = DDP inner None.
Proof.
  intros Hinit.
  destruct (Trainer_init_facts _ _ _ _ _ _ _ _ _ Hinit)
    as (Hl & Hd & Hr & _ & _ & _ & (inner & Hm & _) & _).
  split; [exact Hl|].
  destruct (cuda_is_available w && bool_decide (b = "nccl")).
  - rewrite Hd in Hr. cbn in Hr. apply bool_decide_eq_true in Hr. eauto.
  - eauto.
Qed.

Lemma constructed_trainer_device_witness :
  let w := Example.gpu_box in
  ∃ t, result (Trainer_init w (Net_new w) Example.loader Example.adam 1
                 "snapshot_mnist.pt" "nccl" ∅) = Py.Ok t
       ∧ Py.int (Py.environ_get (environ w) "LOCAL_RANK" (Py.VInt (-1))) = Py.Ok (local_rank t)
       ∧ if cuda_is_available w && bool_decide ("nccl" = "nccl")
         then 0 ≤ local_rank t < Z.of_nat (device_count w)
              ∧ device t = Cuda (local_rank t)
              ∧ ∃ inner, model t = DDP inner (Some [local_rank t])
         else device t = Cpu ∧ ∃ inner, model t = DDP inner None.
Proof.
  intros w. eexists. split; [vm_compute; reflexivity|].
  apply (constructed_trainer_device w (state_dict (Net_new w)) Example.loader Example.adam 1
           "snapshot_mnist.pt" "nccl" ∅).
  vm_compute. reflexivity.
Defined.

Lemma load_state_dict_restores p sd m :
  load_state_dict (Net p) sd = Py.Ok m → state_dict m = sd.
Proof.
  unfold load_state_dict. cbn [state_dict].
  destruct (bool_decide (dom sd = dom p)) eqn:Hd; [|discriminate].
  destruct (shapes_agree p sd); [|discriminate].
  apply bool_decide_eq_true in Hd. intros [= <-]. cbn [assign state_dict].
  apply map_eq. intros k. rewrite map_lookup_imap.
  destruct (p !! k) as [t|] eqn:Hk; cbn; [done|].
  symmetry. apply not_elem_of_dom. rewrite Hd. by apply not_elem_of_dom.
Qed.

(** X15: a construction that succeeds on a store holding a snapshot has
    restored the saved parameters: the state of the module inside the
    wrapper is exactly the snapshot's [MODEL_STATE]. *)
Theorem constructed_trainer_restores_state (w : World) (p : gmap string Tensor)
        (td : DataLoader) (opt : Optimizer) (s : Z) (path b : string)
        (fs : gmap string Snapshot) (snap : Snapshot) (t : Trainer) :
  fs !! path = Some snap →
  result (Trainer_init w (Net p) td opt s path b fs) = Py.Ok t →
  ∃ inner ids, model t = DDP inner ids ∧ state_dict inner = MODEL_STATE snap.
Proof.
  intros Hf Hinit.
  destruct (Trainer_init_facts _ _ _ _ _ _ _ _ _ Hinit)
    as (_ & _ & _ & _ & _ & _ & (inner & Hm & Hl) & _).
  rewrite Hf in Hl. exists inner. eexists. split; [exact Hm|].
  by apply load_state_dict_restores in Hl.
Qed.

Lemma constructed_trainer_restores_state_witness :
  let w := Example.gpu_box in
  let fs := files (main_body w (Example.parameters 3 2 "nccl") ∅) in
  ∃ snap t,
    fs !! "snapshot_mnist.pt" = Some snap
    ∧ result (Trainer_init w (Net_new w) Example.loader Example.adam 2
                "snapshot_mnist.pt" "nccl" fs) = Py.Ok t
    ∧ ∃ inner ids, model t = DDP inner ids ∧ state_dict inner = MODEL_STATE snap.
Proof.
  intros w fs. eexists _, _. split; [vm_compute; reflexivity|].
  split; [vm_compute; reflexivity|].
  eapply (constructed_trainer_restores_state w (state_dict (Net_new w)) Example.loader
            Example.adam 2 "snapshot_mnist.pt" "nccl" fs).
  - vm_compute. reflexivity.
  - vm_compute. reflexivity.
Defined.

(** X16: with an accelerator, save and load round-trip.  If the writer
    saves a wrapped model that has the parameter names and shapes of the
    fresh model, then a construction that would succeed without the
    snapshot also succeeds with it, and the new trainer holds exactly the
    saved parameters and has [epochs_run] equal to the saved epoch. *)
Theorem accelerator_snapshot_round_trips (w : World) (self : Trainer) (inner : NNModule)
        (ids : option (list Z)) (e : Z) (fs : gmap string Snapshot)
        (p : gmap string Tensor) (td : DataLoader) (opt : Optimizer) (s : Z) (b : string)
        (t0 : Trainer) :
  cuda_is_available w = true →
  model self = DDP inner ids →
  similar (Net p) inner →
  fs !! snapshot_path self = None →
  result (Trainer_init w (Net p) td opt s (snapshot_path self) b fs) = Py.Ok t0 →
  ∃ t inner' ids',
    result (Trainer_init w (Net p) td opt s (snapshot_path self) b
              (files (_save_snapshot w self e fs))) = Py.Ok t
    ∧ model t = DDP inner' ids'
    ∧ state_dict inner' = state_dict inner
    ∧ epochs_run t = e.
Proof.
  intros Hc Hm Hsim Hf H0.
  assert (Hlook : files (_save_snapshot w self e fs) !! snapshot_path self =
                  Some {| MODEL_STATE := state_dict inner; EPOCHS_RUN := e |}).
  { unfold _save_snapshot. rewrite Hc, Hm. run. apply lookup_insert_eq. }
  assert (Hsh : shape <$> MODEL_STATE {| MODEL_STATE := state_dict inner; EPOCHS_RUN := e |}
                = shape <$> p).
  { symmetry. apply (similar_state_dict (Net p) inner Hsim). }
  destruct (Trainer_init_resumes _ _ _ _ _ _ _ _ _ _ _ H0 Hf Hlook Hsh) as (t & Ht & _).
  destruct (Trainer_init_ok _ _ _ _ _ _ _ _ _ Ht) as (_ & _ & _ & He & _).
  destruct (Trainer_init_facts _ _ _ _ _ _ _ _ _ Ht)
    as (_ & _ & _ & _ & _ & _ & (inner' & Hm' & Hl) & _).
  rewrite Hlook in He, Hl. apply load_state_dict_restores in Hl.
  exists t, inner'. eexists. eauto.
Qed.

Lemma accelerator_snapshot_round_trips_witness :
  let w := Example.gpu_box in
  let self := Trainers.gpu_trainer in
  ∃ t inner' ids',
    result (Trainer_init w (Net_new w) Example.loader Example.adam 1 (snapshot_path self)
              "nccl" (files (_save_snapshot w self 4 ∅))) = Py.Ok t
    ∧ model t = DDP inner' ids'
    ∧ state_dict inner' = state_dict (Net_new w)
    ∧ epochs_run t = 4.
Proof.
  intros w self.
  eapply (accelerator_snapshot_round_trips w self (Net_new w) (Some [0]) 4 ∅
            (state_dict (Net_new w)) Example.loader Example.adam 1 "nccl").
  - reflexivity.
  - reflexivity.
  - reflexivity.
  - reflexivity.
  - vm_compute. reflexivity.
Defined.

(** *** The snapshot directory *)

Lemma drop_file_rev_no_slash (l : list ascii) :
  Forall (fun c => Py.is_slash c = false) l → Py.drop_file_rev l = [].
Proof. induction 1 as [|c l Hc _ IH]; [done|]. cbn. by rewrite Hc. Qed.

Lemma dirname_no_slash (path : string) :
  Forall (fun c => Py.is_slash c = false) (Py.chars path) → Py.dirname path = "".
Proof.
  intros H. unfold Py.dirname. rewrite drop_file_rev_no_slash; [done|].
  by apply List.Forall_rev.
Qed.

(** X17: for a snapshot path without a slash (such as the default
    [snapshot_mnist.pt]) constructing a trainer creates no directory,
    whether the construction returns or raises. *)
Theorem no_directory_for_bare_file_name (w : World) (m : NNModule) (td : DataLoader)
        (opt : Optimizer) (s : Z) (path b : string) (fs : gmap string Snapshot) :
  Forall (fun c => Py.is_slash c = false) (Py.chars path) →
  directories_made (trace (Trainer_init w m td opt s path b fs)) = [].
Proof.
  intros H. apply dirname_no_slash in H.
  unfold directories_made. revert fs.
  change (quiet makedirs_of (Trainer_init w m td opt s path b)).
  unfold Trainer_init, _load_snapshot, module_to.
  repeat first
    [ match goal with
      | |- quiet _ (if bool_decide (Py.dirname _ ≠ "") then _ else _) =>
          cbn [snapshot_path]; rewrite bool_decide_false by (by intros Hn; apply Hn);
          apply quiet_ret
      end
    | quiet_step ].
Qed.

Lemma no_directory_for_bare_file_name_witness :
  directories_made
    (trace (Trainer_init Example.cpu_box (Net_new Example.cpu_box) Example.loader Example.adam
              1 "snapshot_mnist.pt" "gloo" ∅)) = [].
Proof.
  apply (no_directory_for_bare_file_name Example.cpu_box (Net_new Example.cpu_box)
           Example.loader Example.adam 1 "snapshot_mnist.pt" "gloo" ∅).
  vm_compute. repeat constructor.
Defined.

(** X18: for a snapshot path with a directory part, a construction that
    succeeds has created that directory ([os.path.dirname] of the path)
    exactly once. *)
Theorem directory_created_once (w : World) (p : gmap string Tensor) (td : DataLoader)
        (opt : Optimizer) (s : Z) (path b : string) (fs : gmap string Snapshot)
        (t : Trainer) :
  Py.dirname path ≠ "" →
  result (Trainer_init w (Net p) td opt s path b fs) = Py.Ok t →
  directories_made (trace (Trainer_init w (Net p) td opt s path b fs)) = [Py.dirname path].
Proof.
  intros Hd Hinit.
  destruct (Trainer_init_facts _ _ _ _ _ _ _ _ _ Hinit) as (_ & _ & _ & _ & _ & _ & _ & Hm).
  by rewrite Hm, bool_decide_true.
Qed.

Lemma directory_created_once_witness :
  ∃ t, result (Trainer_init Example.cpu_box (Net_new Example.cpu_box) Example.loader
                 Example.adam 1 "runs/a/snapshot.pt" "gloo" ∅) = Py.Ok t
       ∧ directories_made
           (trace (Trainer_init Example.cpu_box (Net_new Example.cpu_box) Example.loader
                     Example.adam 1 "runs/a/snapshot.pt" "gloo" ∅)) = ["runs/a"].
Proof.
  eexists. split; [vm_compute; reflexivity|].
  eapply (directory_created_once Example.cpu_box (state_dict (Net_new Example.cpu_box))
            Example.loader Example.adam 1 "runs/a/snapshot.pt" "gloo" ∅).
  - vm_compute. discriminate.
  - vm_compute. reflexivity.
Defined.

(** *** Files *)







Lemma range_app (a m b : Z) : a ≤ m ≤ b → Py.range a b = Py.range a m ++ Py.range m b.
Proof.
  intros H. remember (Z.to_nat (m - a)) as n eqn:Hn. revert a H Hn.
  induction n as [|n IH]; intros a H Hn.
  - replace m with a by lia. by rewrite (range_empty a a).
  - rewrite (range_head a b), (range_head a m) by lia. cbn [app]. f_equal.
    apply IH; lia.
Qed.

Lemma elem_of_range (a b e : Z) : In e (Py.range a b) → a ≤ e < b.
Proof.
  unfold Py.range. rewrite in_map_iff. intros (i & <- & Hi). apply in_seq in Hi. lia.
Qed.

Lemma filter_none {A} (f : A → bool) (l : list A) :
  (∀ x, In x l → f x = false) → List.filter f l = [].
Proof.
  induction l as [|x l IH]; intros H; [done|]. cbn.
  rewrite (H x) by (by left). apply IH. intros y Hy. apply H. by right.
Qed.

Lemma no_multiple_after_last (s N e : Z) :
  0 < s → s * ((N - 1) / s) < e < N → e `mod` s ≠ 0.
Proof.
  intros Hs [H1 H2] Hm.
  pose proof (Z.div_mod e s ltac:(lia)) as He. rewrite Hm in He.
  pose proof (Z.div_mod (N - 1) s ltac:(lia)) as HN.
  pose proof (Z.mod_pos_bound (N - 1) s Hs) as Hb.
  set (q := (N - 1) / s) in *. set (j := e / s) in *. rewrite Z.add_0_r in He.
  assert (q < j) by (apply (Z.mul_lt_mono_pos_l s); lia).
  assert (s * (q + 1) ≤ s * j) by (apply Z.mul_le_mono_nonneg_l; lia).
  lia.
Qed.

Lemma due_epochs_end (s k N : Z) :
  0 < s → k ≤ s * ((N - 1) / s) →
  List.filter (is_due 0 s) (Py.range k N) =
  List.filter (is_due 0 s) (Py.range k (s * ((N - 1) / s))) ++ [s * ((N - 1) / s)].
Proof.
  intros Hs Hk. set (M := s * ((N - 1) / s)) in *.
  assert (HM : M < N) by (pose proof (Z.mul_div_le (N - 1) s Hs); lia).
  rewrite (range_app k M N) by lia. rewrite List.filter_app. f_equal.
  rewrite (range_head M N) by done. cbn [List.filter].
  unfold is_due at 1. rewrite (bool_decide_true (0 = 0)) by done.
  rewrite bool_decide_true by (unfold M; by rewrite Z.mul_comm, Z_mod_mult).
  cbn [andb]. f_equal. apply filter_none. intros e He. apply elem_of_range in He.
  unfold is_due. rewrite (bool_decide_false (e `mod` s = 0)); [done|].
  apply no_multiple_after_last with (N := N); [done|]. unfold M in *. lia.
Qed.

(** The last snapshot the writer writes in [train], which is the one on
    disk afterwards. *)
Lemma train_last_write w self inner ids N b fs :
  model self = DDP inner ids →
  global_rank self = 0 →
  0 < save_every self →
  epochs_run self ≤ save_every self * ((N - 1) / save_every self) →
  ∃ snap, files (train w self N b fs) !! snapshot_path self = Some snap
          ∧ EPOCHS_RUN snap = save_every self * ((N - 1) / save_every self)
          ∧ shape <$> MODEL_STATE snap = shape <$> saved_state w (model self).
Proof.
  intros Hm Hg Hs Hk.
  assert (Ht : trainable self) by (split; [by exists inner, ids|intros _; lia]).
  destruct (train_loop_outcome w b (Py.range (epochs_run self) N) self fs Ht)
    as (self' & _ & _ & _ & Hw).
  rewrite train_journaled. unfold train.
  rewrite Hg, due_epochs_end in Hw by done.
  apply Forall2_app_inv_l in Hw as (ws1 & ws2 & _ & Hlast & ->).
  apply Forall2_cons_inv_l in Hlast as (x & ws3 & (Hp & He & Hsh) & Hnil & ->).
  apply Forall2_nil_inv_l in Hnil as ->.
  exists x.2. rewrite replay_app. cbn [replay foldl]. rewrite Hp.
  split; [apply lookup_insert_eq|by split].
Qed.

(** X20: what is on disk after training.  For the writer with a period
    [save_every > 0], if at least one remaining epoch is due, then after
    [train] up to [N] the snapshot file holds the epoch index
    [save_every * ((N - 1) / save_every)], the largest multiple of the
    period below [N] (so [N - 1] only when the period divides [N - 1]). *)
Theorem train_stores_last_due_epoch (w : World) (self : Trainer) (inner : NNModule)
        (ids : option (list Z)) (N : Z) (b : string) (fs : gmap string Snapshot) :
  model self = DDP inner ids →
  global_rank self = 0 →
  0 < save_every self →
  epochs_run self ≤ save_every self * ((N - 1) / save_every self) →
  ∃ snap, files (train w self N b fs) !! snapshot_path self = Some snap
          ∧ EPOCHS_RUN snap = save_every self * ((N - 1) / save_every self).
Proof.
  intros Hm Hg Hs Hk.
  destruct (train_last_write w self inner ids N b fs Hm Hg Hs Hk) as (snap & H1 & H2 & _).
  by exists snap.
Qed.

Lemma train_stores_last_due_epoch_witness :
  let self := Trainers.cpu_trainer_period_3 in
  ∃ snap, files (train Example.cpu_box self 6 "gloo" ∅) !! snapshot_path self = Some snap
          ∧ EPOCHS_RUN snap = save_every self * ((6 - 1) / save_every self).
Proof.
  intros self.
  apply (train_stores_last_due_epoch Example.cpu_box self (Net_new Example.cpu_box) None
           6 "gloo" ∅); first [reflexivity | vm_compute; discriminate].
Defined.

(** *** Whole runs *)






Lemma load_prefixed_shape_fails w (sd X : gmap string Tensor) :
  shape <$> sd = shape <$> kmap (String.append "module.") X →
  Py.is_Ok (load_state_dict (Net_new w) sd) = false.
Proof.
  intros Hsh. unfold load_state_dict.
  rewrite bool_decide_false; [done|].
  intros Hdom.
  pose proof (Net_new_has_conv1_weight w) as Hin.
  apply elem_of_dom in Hin. rewrite <- Hdom, <- (dom_fmap_L shape sd), Hsh, dom_fmap_L in Hin.
  apply elem_of_dom in Hin as [t Ht].
  apply (lookup_kmap_Some (String.append "module.")) in Ht as (k & Hk & _).
  discriminate Hk.
Qed.

Lemma Trainer_init_load_failure w p td opt s path b fs snap :
  fs !! path = Some snap →
  Py.is_Ok (load_state_dict (Net p) (MODEL_STATE snap)) = false →
  Py.is_Ok (result (Trainer_init w (Net p) td opt s path b fs)) = false.
Proof.
  intros Hf Hl.
  destruct (result (Trainer_init w (Net p) td opt s path b fs)) as [t|] eqn:H; [|done].
  destruct (Trainer_init_facts _ _ _ _ _ _ _ _ _ H)
    as (_ & _ & _ & _ & _ & _ & (inner & _ & Hload) & _).
  rewrite Hf in Hload. by rewrite Hload in Hl.
Qed.

Lemma ddp_setup_cpu w b fs :
  cuda_is_available w = false →
  ddp_setup w b fs =
  {| result := Py.Ok (); files := fs;
     trace := [LogInfo "No GPU available, falling back to CPU."; InitProcessGroup "gloo"] |}.
Proof. intros Hc. unfold ddp_setup. by rewrite Hc. Qed.

(** The snapshot a completed fresh run of the writer leaves on a machine
    without accelerator has the keys of a wrapped model. *)
Lemma cpu_first_run_snapshot w p fs r :
  cuda_is_available w = false →
  environ w !! "RANK" = Some r →
  Py.int_of_string r = Py.Ok 0 →
  0 < Parameters.epochs p →
  0 < Parameters.save_every p →
  fs !! Parameters.snapshot_path p = None →
  result (main_body w p fs) = Py.Ok () →
  ∃ snap X,
    files (main_body w p fs) !! Parameters.snapshot_path p = Some snap
    ∧ shape <$> MODEL_STATE snap = shape <$> kmap (String.append "module.") X.
Proof.
  intros Hcuda Hr Hg HN Hs Hfresh Hrun.
  unfold main_body in *. rewrite bind_outcome, ddp_setup_cpu in Hrun |- * by done.
  cbn [result files trace] in Hrun |- *.
  rewrite bind_outcome, construct_and_train_outcome in Hrun |- *.
  cbn zeta in Hrun |- *. cbn [result files trace] in Hrun |- *.
  rewrite bind_outcome in Hrun |- *.
  set (td := prepare_dataloader _ _ _) in *. set (opt := {| learning_rate := _ |}) in *.
  unfold Net_new in *. set (p0 := list_to_map _) in *.
  destruct (result (Trainer_init w (Net p0) td opt _ _ _ fs)) as [t0|] eqn:Hinit;
    [|discriminate Hrun].
  cbn [result files trace] in Hrun |- *. rewrite Trainer_init_files in Hrun |- *.
  destruct (Trainer_init_ok _ _ _ _ _ _ _ _ _ Hinit)
    as (Hse & Hpath & (inner & ids & Hm & _) & Hep & (r' & Hr' & Hg')).
  rewrite Hfresh in Hep. rewrite Hr in Hr'. injection Hr' as <-.
  rewrite Hg in Hg'. injection Hg' as Hg'.
  destruct (train_last_write w t0 inner ids (Parameters.epochs p) (Parameters.backend p) fs)
    as (snap & Hlook & _ & Hsh); [done|done|lia| |].
  { rewrite Hep, Hse. apply Z.mul_nonneg_nonneg; [lia|]. apply Z.div_pos; lia. }
  exists snap, (state_dict inner).
  destruct (result (train w t0 _ _ fs)); cbn [files]; rewrite <- Hpath;
    (split; [exact Hlook|]); rewrite Hsh; unfold saved_state; by rewrite Hcuda, Hm.
Qed.

(** On a machine without accelerator, a run of [main] on a store whose
    snapshot cannot be loaded raises before any training work. *)
Lemma cpu_run_load_failure w p fs snap :
  cuda_is_available w = false →
  fs !! Parameters.snapshot_path p = Some snap →
  Py.is_Ok (load_state_dict (Net_new w) (MODEL_STATE snap)) = false →
  Py.is_Ok (result (main_body w p fs)) = false
  ∧ epochs_executed (trace (main_body w p fs)) = []
  ∧ snapshots_written (trace (main_body w p fs)) = []
  ∧ teardowns (trace (main_body w p fs)) = []
  ∧ files (main_body w p fs) = fs.
Proof.
  intros Hcuda Hlook Hload.
  unfold main_body. rewrite bind_outcome, ddp_setup_cpu by done.
  cbn [result files trace].
  rewrite bind_outcome, construct_and_train_outcome.
  cbn zeta. cbn [result files trace]. rewrite bind_outcome.
  set (td := prepare_dataloader _ _ _). set (opt := {| learning_rate := _ |}).
  unfold Net_new in *. set (p0 := list_to_map _) in *.
  pose proof (Trainer_init_load_failure w p0 td opt (Parameters.save_every p)
                (Parameters.snapshot_path p) (Parameters.backend p) fs snap Hlook Hload)
    as Hfail.
  destruct (result (Trainer_init w (Net p0) td opt _ _ _ fs)) as [t|] eqn:Hinit;
    [discriminate Hfail|].
  cbn [result files trace]. rewrite Trainer_init_files.
  unfold epochs_executed, snapshots_written, teardowns.
  cbn [app omap list_omap epoch_of write_of teardown_of].
  rewrite !Trainer_init_quiet by done. done.
Qed.

(** X22: without accelerator a completed run cannot be resumed.  After
    the writer has completed a fresh run of [main] with [epochs > 0] and
    [save_every > 0] on a machine without accelerator, the next run of
    [main] with the same parameters raises while it loads the snapshot: it
    runs no epoch, writes nothing, leaves the files as they are and does
    not tear the process group down. *)
Theorem cpu_rerun_fails (w : World) (p : Parameters.t) (fs : gmap string Snapshot)
        (r : string) :
  device_count w = 0%nat →
  environ w !! "RANK" = Some r →
  Py.int_of_string r = Py.Ok 0 →
  0 < Parameters.epochs p →
  0 < Parameters.save_every p →
  fs !! Parameters.snapshot_path p = None →
  result (main w (Py.VDict p) fs) = Py.Ok () →
  Py.is_Ok (result (main w (Py.VDict p) (files (main w (Py.VDict p) fs)))) = false
  ∧ epochs_executed (trace (main w (Py.VDict p) (files (main w (Py.VDict p) fs)))) = []
  ∧ snapshots_written (trace (main w (Py.VDict p) (files (main w (Py.VDict p) fs)))) = []
  ∧ teardowns (trace (main w (Py.VDict p) (files (main w (Py.VDict p) fs)))) = []
  ∧ files (main w (Py.VDict p) (files (main w (Py.VDict p) fs)))
    = files (main w (Py.VDict p) fs).
Proof.
  intros Hdev Hr Hg HN Hs Hfresh Hrun.
  pose proof (cuda_unavailable w Hdev) as Hcuda.
  destruct (cpu_first_run_snapshot w p fs r Hcuda Hr Hg HN Hs Hfresh Hrun)
    as (snap & X & Hlook & Hsh).
  apply (cpu_run_load_failure w p _ snap Hcuda Hlook).
  by apply load_prefixed_shape_fails with (X := X).
Qed.

Lemma cpu_rerun_fails_witness :
  let w := Example.cpu_box in
  let p := Example.parameters 2 1 "gloo" in
  Py.is_Ok (result (main w (Py.VDict p) (files (main w (Py.VDict p) ∅)))) = false
  ∧ epochs_executed (trace (main w (Py.VDict p) (files (main w (Py.VDict p) ∅)))) = []
  ∧ snapshots_written (trace (main w (Py.VDict p) (files (main w (Py.VDict p) ∅)))) = []
  ∧ teardowns (trace (main w (Py.VDict p) (files (main w (Py.VDict p) ∅)))) = []
  ∧ files (main w (Py.VDict p) (files (main w (Py.VDict p) ∅)))
    = files (main w (Py.VDict p) ∅).
Proof.
  intros w p.
  apply (cpu_rerun_fails w p ∅ "0"); first [reflexivity | vm_compute; reflexivity].
Defined.
